(** * Procountor company search: the PRH (YTJ) API client

    A shallow embedding of [src/api/prhApi.ts]: the query formatter
    [formatSearchParams], the response normalizer [transformResponse] and
    the fetch orchestrator [fetchCompanies], together with the part of the
    JavaScript semantics these three functions rely on (truthiness,
    [typeof], property access, [String], [JSON.stringify], exceptions).

    Conventions of the embedding.
    - A payload is a JavaScript value as [JSON.parse] builds it, or
      [undefined]: see [value].
    - Numbers are the integers (page indices, counts, codes); fractional
      doubles are outside the embedding.  Arithmetic results live in
      [number], which adds [NaN] and the two infinities.  The arithmetic
      of the embedding ([page + 1], [Math.ceil] of a quotient, decimal
      text) is that of the integers; it is the arithmetic of the code on
      the safe integers (absolute value below 2^53), where doubles are
      exact and print in plain decimal.  Every theorem that rests on this
      arithmetic carries that bound as a hypothesis: see [safeInteger].
    - Strings are sequences of 8-bit characters ([String.string]).
    - A [throw] is an explicit result: see [completion].
    - Logging through [console.error] does not change any result and is
      left out. *)

From Stdlib Require Import String Ascii List ZArith Bool Lia DecimalString
  DecimalZ.
Import ListNotations.
Local Open Scope list_scope.
Local Open Scope string_scope.

(** ** JavaScript values and completions *)

Module JS.

#[warnings="-register-all"]
Inductive value : Type :=
| Undefined
| Null
| Bool (b : bool)
| Num (z : Z)
| Str (s : string)
| Arr (elems : list value)
| Obj (props : list (string * value)).

(** Results of arithmetic: an integer, or one of the non-finite doubles. *)
Inductive number : Type :=
| Int (z : Z)
| NaN
| PosInf
| NegInf.

Inductive error : Type :=
| TypeError
| SyntaxError
| Error (message : string).

(** A computation either returns normally or throws. *)
Inductive completion (A : Type) : Type :=
| Normal (a : A)
| Throw (e : error).
Arguments Normal {A} a.
Arguments Throw {A} e.

Definition bind {A B} (c : completion A) (k : A -> completion B)
  : completion B :=
  match c with
  | Normal a => k a
  | Throw e => Throw e
  end.

(** [try c catch handler] *)
Definition try_catch {A} (c : completion A) (handler : error -> A) : A :=
  match c with
  | Normal a => a
  | Throw e => handler e
  end.

Declare Scope js_scope.
Delimit Scope js_scope with js.
Notation "'let*' x ':=' c 'in' k" := (bind c (fun x => k))
  (at level 10, x name, c at level 100, k at level 200) : js_scope.
Local Open Scope js_scope.

(** *** Primitive operations *)

Definition typeof (v : value) : string :=
  match v with
  | Undefined => "undefined"
  | Null => "object"
  | Bool _ => "boolean"
  | Num _ => "number"
  | Str _ => "string"
  | Arr _ => "object"
  | Obj _ => "object"
  end.

(** ToBoolean *)
Definition truthy (v : value) : bool :=
  match v with
  | Undefined => false
  | Null => false
  | Bool b => b
  | Num z => negb (z =? 0)%Z
  | Str s => negb (s =? "")
  | Arr _ => true
  | Obj _ => true
  end.

(** [a || b] *)
Definition or_else (a b : value) : value :=
  if truthy a then a else b.

Definition nullish (v : value) : bool :=
  match v with
  | Undefined | Null => true
  | _ => false
  end.

Definition is_undefined (v : value) : bool :=
  match v with
  | Undefined => true
  | _ => false
  end.

(** [v === "s"] *)
Definition strict_eq_string (v : value) (s : string) : bool :=
  match v with
  | Str t => t =? s
  | _ => false
  end.

Fixpoint lookup (k : string) (props : list (string * value)) : option value :=
  match props with
  | [] => None
  | (k', v) :: rest => if k' =? k then Some v else lookup k rest
  end.

Definition has_own (k : string) (props : list (string * value)) : bool :=
  match lookup k props with
  | Some _ => true
  | None => false
  end.

(** Decimal text of an integer: [String(n)] for an integer double below
    10^21 in absolute value (from there on JavaScript prints an exponent). *)
Definition string_of_Z (z : Z) : string :=
  NilZero.string_of_int (Z.to_int z).

Definition string_of_nat (n : nat) : string :=
  string_of_Z (Z.of_nat n).

(** [s[i]]: the one-character string at position [i]. *)
Definition char_at (s : string) (i : nat) : value :=
  match String.get i s with
  | Some c => Str (String c EmptyString)
  | None => Undefined
  end.

(** [v.k] for a named key [k] other than an array index.  The keys the
    program reads ([companies], [names], [value], ...) are not properties
    of the built-in prototypes, except [length]. *)
Definition get (v : value) (k : string) : completion value :=
  match v with
  | Undefined | Null => Throw TypeError
  | Obj props =>
      match lookup k props with
      | Some x => Normal x
      | None => Normal Undefined
      end
  | Arr elems =>
      if k =? "length" then Normal (Num (Z.of_nat (List.length elems)))
      else Normal Undefined
  | Str s =>
      if k =? "length" then Normal (Num (Z.of_nat (String.length s)))
      else Normal Undefined
  | Bool _ | Num _ => Normal Undefined
  end.

(** [v[i]] *)
Definition get_index (v : value) (i : nat) : completion value :=
  match v with
  | Undefined | Null => Throw TypeError
  | Obj props =>
      match lookup (string_of_nat i) props with
      | Some x => Normal x
      | None => Normal Undefined
      end
  | Arr elems => Normal (nth i elems Undefined)
  | Str s => Normal (char_at s i)
  | Bool _ | Num _ => Normal Undefined
  end.

(** [v?.k] and [v?.[i]] *)
Definition get_opt (v : value) (k : string) : completion value :=
  if nullish v then Normal Undefined else get v k.

Definition get_index_opt (v : value) (i : nat) : completion value :=
  if nullish v then Normal Undefined else get_index v i.

(** *** ToString *)

(** [String(v)] and the conversion of template literals.  An object prints
    as "[object Object]" through [Object.prototype.toString]; an own
    [toString] property (never callable in parsed JSON) hides that method,
    and the conversion throws.  An array prints as [join(",")]. *)
Fixpoint ToString (v : value) : completion string :=
  match v with
  | Undefined => Normal "undefined"
  | Null => Normal "null"
  | Bool true => Normal "true"
  | Bool false => Normal "false"
  | Num z => Normal (string_of_Z z)
  | Str s => Normal s
  | Arr elems =>
      (fix join (l : list value) : completion string :=
         match l with
         | [] => Normal ""
         | x :: rest =>
             let* a := (if nullish x then Normal "" else ToString x) in
             match rest with
             | [] => Normal a
             | _ :: _ => let* b := join rest in Normal (a ++ "," ++ b)
             end
         end) elems
  | Obj props =>
      if has_own "toString" props then Throw TypeError
      else Normal "[object Object]"
  end.

(** *** JSON.stringify *)

Definition hex_digit (n : N) : ascii :=
  if (n <? 10)%N then ascii_of_N (48 + n) else ascii_of_N (87 + n).

(** One character inside a JSON string literal. *)
Definition quote_char (c : ascii) : string :=
  let n := N_of_ascii c in
  if (n =? 34)%N then "\" ++ String c ""
  else if (n =? 92)%N then "\\"
  else if (n =? 8)%N then "\b"
  else if (n =? 9)%N then "\t"
  else if (n =? 10)%N then "\n"
  else if (n =? 12)%N then "\f"
  else if (n =? 13)%N then "\r"
  else if (n <? 32)%N then
    "\u00" ++ String (hex_digit (n / 16)) (String (hex_digit (n mod 16)) "")
  else String c "".


(** The double-quote character, as a string. *)
Definition dquote : string := String (ascii_of_N 34) "".

Definition quote (s : string) : string :=
  let dq := dquote in
  dq ++ String.concat "" (map quote_char (list_ascii_of_string s)) ++ dq.

(** SerializeJSONProperty: the text of a value inside a document.  An
    [undefined] array element prints as null; an [undefined] property is
    left out.  Own [toJSON] properties of parsed JSON are not callable and
    are ignored. *)
Fixpoint serialize (v : value) : string :=
  match v with
  | Undefined => "null"
  | Null => "null"
  | Bool true => "true"
  | Bool false => "false"
  | Num z => string_of_Z z
  | Str s => quote s
  | Arr elems => "[" ++ String.concat "," (map serialize elems) ++ "]"
  | Obj props =>
      "{" ++
      String.concat ","
        (flat_map
           (fun '(k, x) =>
              if is_undefined x then []
              else [quote k ++ ":" ++ serialize x]) props)
      ++ "}"
  end.

(** [JSON.stringify(v)]: [None] stands for the result [undefined]. *)
Definition JSON_stringify (v : value) : option string :=
  match v with
  | Undefined => None
  | _ => Some (serialize v)
  end.

(** *** Strings *)

(** [s.includes(sub)] *)
Fixpoint includes (s sub : string) : bool :=
  if String.prefix sub s then true
  else match s with
       | EmptyString => false
       | String _ rest => includes rest sub
       end.

(** White space of the 8-bit range: TAB, LF, VT, FF, CR, SP and NBSP. *)
Definition is_space (c : ascii) : bool :=
  let n := N_of_ascii c in
  ((9 <=? n) && (n <=? 13) || (n =? 32) || (n =? 160))%N.

Fixpoint trim_start (s : string) : string :=
  match s with
  | EmptyString => EmptyString
  | String c rest => if is_space c then trim_start rest else s
  end.

Fixpoint trim_end (s : string) : string :=
  match s with
  | EmptyString => EmptyString
  | String c rest =>
      match trim_end rest with
      | EmptyString => if is_space c then EmptyString else String c EmptyString
      | t => String c t
      end
  end.

(** [s.trim()] *)
Definition trim (s : string) : string := trim_end (trim_start s).

(** *** Numbers *)

(** [n > 0] *)
Definition number_gt0 (n : number) : bool :=
  match n with
  | Int z => (0 <? z)%Z
  | PosInf => true
  | NaN | NegInf => false
  end.

(** [Math.ceil(a / b)].  On integers this is the exact ceiling of the
    quotient; a zero divisor is the positive zero.  The code rounds the
    quotient to a double before [Math.ceil]; for safe integers [a] and [b]
    (absolute value below 2^53) the two agree: an integer quotient is a
    double itself, and a quotient strictly between the integers [n] and
    [n + 1] is at least [1 / b] above [n], more than half the distance
    from [n] to the next double above it, so the rounded quotient stays
    above [n] and its ceiling is [n + 1].  Beyond the safe integers the
    rounding can reach [n], and the code may then differ from this
    definition. *)
Definition ceil_div (a b : number) : number :=
  match a, b with
  | NaN, _ | _, NaN => NaN
  | Int x, Int y =>
      if (y =? 0)%Z then
        if (0 <? x)%Z then PosInf else if (x <? 0)%Z then NegInf else NaN
      else Int (- ((- x) / y))%Z
  | Int _, (PosInf | NegInf) => Int 0
  | (PosInf | NegInf), (PosInf | NegInf) => NaN
  | PosInf, Int y => if (y <? 0)%Z then NegInf else PosInf
  | NegInf, Int y => if (y <? 0)%Z then PosInf else NegInf
  end.

(** *** Array methods *)

(** [Array.prototype.find]: the first element the predicate accepts, or
    [undefined]; a throwing predicate ends the search. *)
Fixpoint find (predicate : value -> completion bool) (l : list value)
  : completion value :=
  match l with
  | [] => Normal Undefined
  | x :: rest =>
      let* accepted := predicate x in
      if accepted then Normal x else find predicate rest
  end.

(** [v.find(predicate)]: only arrays have the method. *)
Definition call_find (v : value) (predicate : value -> completion bool)
  : completion value :=
  match v with
  | Arr elems => find predicate elems
  | _ => Throw TypeError
  end.

(** [v?.find(predicate)] *)
Definition call_find_opt (v : value) (predicate : value -> completion bool)
  : completion value :=
  if nullish v then Normal Undefined else call_find v predicate.

(** [l.map((x, index) => f x index)], indices counted from [start]. *)
Fixpoint map_from {A} (start : nat) (f : value -> nat -> A) (l : list value)
  : list A :=
  match l with
  | [] => []
  | x :: rest => f x start :: map_from (S start) f rest
  end.

Definition map_index {A} (f : value -> nat -> A) (l : list value) : list A :=
  map_from 0 f l.

(** The TypeScript cast [v as string], used under a [typeof] guard. *)
Definition as_string (v : value) : string :=
  match v with
  | Str s => s
  | _ => ""
  end.

(** *** ToNumber *)

Section ToNumber.

(** The numeric reading of a string (ECMAScript's StringToNumber) is a
    parameter of the development. *)
Variable StringToNumber : string -> number.

(** Arrays and objects convert through their text. *)
Definition ToNumber (v : value) : completion number :=
  match v with
  | Undefined => Normal NaN
  | Null => Normal (Int 0)
  | Bool true => Normal (Int 1)
  | Bool false => Normal (Int 0)
  | Num z => Normal (Int z)
  | Str s => Normal (StringToNumber s)
  | Arr _ | Obj _ => let* s := ToString v in Normal (StringToNumber s)
  end.

(** [v > 0] *)
Definition gt0 (v : value) : completion bool :=
  let* n := ToNumber v in Normal (number_gt0 n).

End ToNumber.

End JS.
Import JS.
Local Open Scope js_scope.

(** ** The data model ([src/types/index.ts]) *)

Module CompanySearchParams.
Record t : Type := mk {
  location : option string;
  businessId : option string;
  registrationDateStart : option string;
  registrationDateEnd : option string;
  page : option Z;
  maxResults : option Z
}.
End CompanySearchParams.

(** All fields of a normalized record are strings, except [endDate], which
    carries the upstream value as it came when that value is truthy. *)
Module Company.
Record t : Type := mk {
  businessId : string;
  name : string;
  registrationDate : string;
  companyForm : string;
  location : string;
  endDate : value;
  detailsUri : string
}.
End Company.

(** [totalResults] is the upstream value when truthy, whatever its type. *)
Module CompanySearchResponse.
Record t : Type := mk {
  results : list Company.t;
  totalResults : value;
  currentPage : Z;
  totalPages : number
}.
End CompanySearchResponse.

Definition BASE_URL : string :=
  "https://avoindata.prh.fi/opendata-ytj-api/v3".

(** ** Query formatter *)

(** [obj[k] = v] on a [Record<string, string>], kept in insertion order. *)
Fixpoint assign (k v : string) (obj : list (string * string))
  : list (string * string) :=
  match obj with
  | [] => [(k, v)]
  | (k', v') :: rest =>
      if k' =? k then (k, v) :: rest else (k', v') :: assign k v rest
  end.

Fixpoint entry (k : string) (obj : list (string * string)) : option string :=
  match obj with
  | [] => None
  | (k', v) :: rest => if k' =? k then Some v else entry k rest
  end.

(** An optional string of the criteria is truthy when present and not
    empty. *)
Definition is_set (field : option string) : bool :=
  match field with
  | Some s => negb (s =? "")
  | None => false
  end.

Definition assign_if_set (k : string) (field : option string)
    (obj : list (string * string)) : list (string * string) :=
  match field with
  | Some s => if is_set field then assign k s obj else obj
  | None => obj
  end.

(** [params.page || 0] *)
Definition page_or_0 (page : option Z) : Z :=
  match page with
  | Some z => if (z =? 0)%Z then 0%Z else z
  | None => 0%Z
  end.

(** The page sent is [String((params.page || 0) + 1)]; the sum and its
    text are those of the code for a page that is a safe integer. *)
Definition formatSearchParams (params : CompanySearchParams.t)
  : list (string * string) :=
  let formattedParams := [] in
  let formattedParams :=
    assign_if_set "businessId"
      (CompanySearchParams.businessId params) formattedParams in
  let formattedParams :=
    assign_if_set "location"
      (CompanySearchParams.location params) formattedParams in
  let formattedParams :=
    assign_if_set "registrationDateStart"
      (CompanySearchParams.registrationDateStart params) formattedParams in
  let formattedParams :=
    assign_if_set "registrationDateEnd"
      (CompanySearchParams.registrationDateEnd params) formattedParams in
  let formattedParams := assign "totalResults" "true" formattedParams in
  let formattedParams :=
    assign "page"
      (string_of_Z (page_or_0 (CompanySearchParams.page params) + 1))
      formattedParams in
  formattedParams.

(** ** Response normalizer *)

Section Normalizer.

Variable StringToNumber : string -> number.

(** The placeholder identifier of a record at position [index]. *)
Definition company_placeholder (index : nat) : string :=
  "company-" ++ string_of_nat index.

(** [(name) => name.language === "FI" && !name.endDate] *)
Definition isCurrentFinnishName (name : value) : completion bool :=
  let* language := get name "language" in
  if strict_eq_string language "FI" then
    let* endDate := get name "endDate" in
    Normal (negb (truthy endDate))
  else Normal false.

(** [(address) => !address.endDate] *)
Definition isCurrentAddress (address : value) : completion bool :=
  let* endDate := get address "endDate" in
  Normal (negb (truthy endDate)).

(** The value of [primaryName]. *)
Definition primaryName (result : value) : completion value :=
  let* names := get result "names" in
  let* finnishName := call_find_opt names isCurrentFinnishName in
  let* finnish := get_opt finnishName "name" in
  if truthy finnish then Normal finnish
  else
    let* names := get result "names" in
    let* nonEmpty :=
      (if truthy names then let* length := get names "length" in
                            gt0 StringToNumber length
       else Normal false) in
    if nonEmpty then
      let* names := get result "names" in
      let* first := get_index names 0 in
      let* firstName := get_opt first "name" in
      let* text := ToString (or_else firstName (Str "")) in
      Normal (Str text)
    else Normal (Str "").

(** The value of [businessIdStr] for the upstream field [businessId]. *)
Definition businessIdStr (businessId : value) (index : nat) : string :=
  if typeof businessId =? "string" then as_string businessId
  else if truthy businessId then
    try_catch
      (if typeof businessId =? "object" then
         let bidObj := businessId in
         let* value := get bidObj "value" in
         if truthy value && (typeof value =? "string") then
           Normal (as_string value)
         else
           let* id := get bidObj "id" in
           if truthy id && (typeof id =? "string") then
             Normal (as_string id)
           else Normal (company_placeholder index)
       else ToString businessId)
      (fun _ => company_placeholder index)
  else company_placeholder index.

(** The last resort of the registration date: the JSON text, unless it is
    the empty object or shows the generic object text.  When
    [JSON.stringify] returns [undefined], [includes] throws and the
    [catch] block gives the empty string. *)
Definition stringifyDate (registrationDate : value) : string :=
  match JSON_stringify registrationDate with
  | Some text =>
      if (text =? "{}") || includes text "[object Object]" then ""
      else text
  | None => ""
  end.

(** The value of [registrationDateStr] for the upstream field. *)
Definition registrationDateStr (registrationDate : value)
  : completion string :=
  if typeof registrationDate =? "string" then
    Normal (as_string registrationDate)
  else if truthy registrationDate then
    let regDateObj := registrationDate in
    let* value := get regDateObj "value" in
    if truthy value && (typeof value =? "string") then
      Normal (as_string value)
    else
      let* nested := get regDateObj "registrationDate" in
      if truthy nested && (typeof nested =? "string") then
        Normal (as_string nested)
      else Normal (stringifyDate registrationDate)
  else Normal "".

(** The value of [companyFormStr] for the upstream field [companyForms].
    Where [JSON.stringify] is reached, [form] is truthy and the text is
    defined. *)
Definition companyFormStr (companyForms : value) : completion string :=
  let* nonEmpty :=
    (if truthy companyForms then
       let* length := get companyForms "length" in
       gt0 StringToNumber length
     else Normal false) in
  if nonEmpty then
    let* form := get_index companyForms 0 in
    if typeof form =? "string" then Normal (as_string form)
    else if truthy form then
      let* name := get form "name" in
      if typeof name =? "string" then Normal (as_string name)
      else
        Normal (match JSON_stringify form with
                | Some text => text
                | None => ""
                end)
    else Normal ""
  else Normal "".

(** The value of [locationStr] for the chosen address. *)
Definition locationStr (primaryAddress : value) : completion string :=
  if truthy primaryAddress then
    let* postCode := get primaryAddress "postCode" in
    let* code := ToString (or_else postCode (Str "")) in
    let* postOffices := get primaryAddress "postOffices" in
    let* office := get_index_opt postOffices 0 in
    let* city := get_opt office "city" in
    let* town := ToString (or_else city (Str "")) in
    Normal (trim (code ++ " " ++ town))
  else Normal "".

(** The record returned by the [catch] block of one object. *)
Definition errorCompany (index : nat) : Company.t :=
  {| Company.businessId := "error-" ++ string_of_nat index;
     Company.name := "Error processing data";
     Company.registrationDate := "";
     Company.companyForm := "";
     Company.location := "";
     Company.endDate := Str "";
     Company.detailsUri := "" |}.

(** The [try] block of the callback of [data.companies.map]. *)
Definition tryTransformCompany (result : value) (index : nat)
  : completion Company.t :=
  let* name := primaryName result in
  let* addresses := get result "addresses" in
  let* primaryAddress := call_find_opt addresses isCurrentAddress in
  let* businessId := get result "businessId" in
  let businessIdStr := businessIdStr businessId index in
  let* registrationDate := get result "registrationDate" in
  let* registrationDateStr := registrationDateStr registrationDate in
  let* companyForms := get result "companyForms" in
  let* companyFormStr := companyFormStr companyForms in
  let* locationStr := locationStr primaryAddress in
  let* endDate := get result "endDate" in
  let endDateStr := or_else endDate (Str "") in
  let* nameStr := ToString name in
  Normal
    {| Company.businessId := businessIdStr;
       Company.name := nameStr;
       Company.registrationDate := registrationDateStr;
       Company.companyForm := companyFormStr;
       Company.location := locationStr;
       Company.endDate := endDateStr;
       Company.detailsUri := BASE_URL ++ "/companies/" ++ businessIdStr |}.

(** The callback of [data.companies.map]: one upstream object to one
    record, with its own [try]/[catch]. *)
Definition transformCompany (result : value) (index : nat) : Company.t :=
  try_catch (tryTransformCompany result index) (fun _ => errorCompany index).

Definition emptyResponse (page : Z) : CompanySearchResponse.t :=
  {| CompanySearchResponse.results := [];
     CompanySearchResponse.totalResults := Num 0;
     CompanySearchResponse.currentPage := page;
     CompanySearchResponse.totalPages := Int 0 |}.

(** The default parameter values [page = 0] and [maxResults = 100]. *)
Definition pageOrDefault (page : option Z) : Z :=
  match page with
  | Some p => p
  | None => 0%Z
  end.

Definition pageSize (maxResults : option Z) : Z :=
  match maxResults with
  | Some m => m
  | None => 100%Z
  end.

(** [data.companies.map(callback)]: only arrays have the method. *)
Definition mapCompanies (companies : value) : completion (list Company.t) :=
  match companies with
  | Arr elems => Normal (map_index transformCompany elems)
  | _ => Throw TypeError
  end.

(** [transformResponse(data, page = 0, maxResults = 100)] *)
Definition transformResponse (data : value) (page maxResults : option Z)
  : completion CompanySearchResponse.t :=
  let page := pageOrDefault page in
  let maxResults := pageSize maxResults in
  let* missing :=
    (if negb (truthy data) then Normal true
     else let* companies := get data "companies" in
          Normal (negb (truthy companies))) in
  if missing then Normal (emptyResponse page)
  else
    let* upstream := get data "companies" in
    let* companies := mapCompanies upstream in
    let* totalResults := get data "totalResults" in
    let total :=
      or_else totalResults (Num (Z.of_nat (List.length companies))) in
    let* count := ToNumber StringToNumber total in
    Normal
      {| CompanySearchResponse.results := companies;
         CompanySearchResponse.totalResults := total;
         CompanySearchResponse.currentPage := page;
         CompanySearchResponse.totalPages := ceil_div count (Int maxResults) |}.

End Normalizer.

(** ** Fetch orchestrator *)

(** *** URLSearchParams *)

Definition upper_hex_digit (n : N) : ascii :=
  if (n <? 10)%N then ascii_of_N (48 + n) else ascii_of_N (55 + n).

Definition percent_byte (n : N) : string :=
  String "%" (String (upper_hex_digit (n / 16))
                (String (upper_hex_digit (n mod 16)) "")).

(** The application/x-www-form-urlencoded form of one character: letters,
    digits and [*-._] stay, a space becomes [+], the rest is the
    percent-encoding of its UTF-8 bytes. *)
Definition urlencode_char (c : ascii) : string :=
  let n := N_of_ascii c in
  if ((48 <=? n) && (n <=? 57) || (65 <=? n) && (n <=? 90)
      || (97 <=? n) && (n <=? 122)
      || (n =? 42) || (n =? 45) || (n =? 46) || (n =? 95))%N
  then String c ""
  else if (n =? 32)%N then "+"
  else if (n <? 128)%N then percent_byte n
  else percent_byte (192 + n / 64) ++ percent_byte (128 + n mod 64).

Definition urlencode (s : string) : string :=
  String.concat "" (map urlencode_char (list_ascii_of_string s)).

(** [searchParams.toString()] after appending every entry in order. *)
Definition URLSearchParams_toString (entries : list (string * string))
  : string :=
  String.concat "&"
    (map (fun '(k, v) => urlencode k ++ "=" ++ urlencode v) entries).

(** *** The network *)

(** A settled response: its status and what [response.json()] gives (a
    [SyntaxError] when the body is not JSON). *)
Record Response : Type := mkResponse {
  status : Z;
  json : completion value
}.

(** [response.ok]: a status from 200 to 299. *)
Definition ok (response : Response) : bool :=
  ((200 <=? status response) && (status response <=? 299))%Z.

Section Orchestrator.

Variable StringToNumber : string -> number.

(** [fetch(url)]: the response, or a rejection on a network failure. *)
Variable fetch : string -> completion Response.

Definition requestUrl (params : CompanySearchParams.t) : string :=
  BASE_URL ++ "/companies?"
  ++ URLSearchParams_toString (formatSearchParams params).

(** The [try] block of [fetchCompanies]. *)
Definition tryFetchCompanies (params : CompanySearchParams.t)
  : completion CompanySearchResponse.t :=
  let url := requestUrl params in
  let* response := fetch url in
  if negb (ok response) then
    Throw (Error ("PRH API error: " ++ string_of_Z (status response)))
  else
    let* data := json response in
    transformResponse StringToNumber data
      (Some (page_or_0 (CompanySearchParams.page params))) (Some 100%Z).

Definition fetchCompanies (params : CompanySearchParams.t)
  : CompanySearchResponse.t :=
  try_catch (tryFetchCompanies params)
    (fun _ => emptyResponse (page_or_0 (CompanySearchParams.page params))).

End Orchestrator.

(** A numeric reading for the examples: decimal digits read as their
    integer, the empty string as 0, any other text as [NaN]. *)
Fixpoint digits_value (acc : Z) (s : string) : number :=
  match s with
  | EmptyString => Int acc
  | String c rest =>
      let n := N_of_ascii c in
      if ((48 <=? n) && (n <=? 57))%N
      then digits_value (10 * acc + Z.of_N (n - 48)) rest
      else NaN
  end.

Definition decimalStringToNumber (s : string) : number :=
  digits_value 0 (trim s).

(** ** Search form ([src/components/CompanySearch.tsx]) *)

Definition is_digit (c : ascii) : bool :=
  let n := N_of_ascii c in ((48 <=? n) && (n <=? 57))%N.

Definition is_ascii_letter (c : ascii) : bool :=
  let n := N_of_ascii c in
  ((65 <=? n) && (n <=? 90) || (97 <=? n) && (n <=? 122))%N.

(** [count] digits at the head of [s]: the rest of the string when they
    are there. *)
Fixpoint match_digits (count : nat) (s : string) : option string :=
  match count with
  | O => Some s
  | S count' =>
      match s with
      | String c rest => if is_digit c then match_digits count' rest else None
      | EmptyString => None
      end
  end.

(** [/^\d{7}-\d$/.test(id)]: seven digits, a hyphen, one digit, then the
    end of the input. *)
Definition businessIdPattern (id : string) : bool :=
  match match_digits 7 id with
  | Some (String c rest) =>
      (c =? "-")%char
      && match match_digits 1 rest with
         | Some EmptyString => true
         | _ => false
         end
  | _ => false
  end.

(** [/[a-zA-Z]/.test(loc)]: some character is an ASCII letter. *)
Definition townNamePattern (loc : string) : bool :=
  existsb is_ascii_letter (list_ascii_of_string loc).

Definition validateBusinessId (id : string) : bool :=
  if id =? "" then true
  else businessIdPattern id.

Definition validateLocation (loc : string) : bool :=
  if loc =? "" then true
  else townNamePattern loc && (0 <? String.length (trim loc))%nat.

Module ValidationErrors.
Record t : Type := mk {
  businessId : option string;
  location : option string;
  dateRange : option string;
  form : option string
}.
End ValidationErrors.

(** [Object.keys(newErrors).length > 0] *)
Definition hasErrors (errors : ValidationErrors.t) : bool :=
  match ValidationErrors.businessId errors, ValidationErrors.location errors,
        ValidationErrors.dateRange errors, ValidationErrors.form errors with
  | None, None, None, None => false
  | _, _, _, _ => true
  end.

(** [s || undefined] for a string [s] *)
Definition string_or_undefined (s : string) : option string :=
  if s =? "" then None else Some s.

Section SearchForm.

(** The date library: the type of its dates (objects, always truthy), its
    comparisons and [format("YYYY-MM-DD")] are parameters. *)
Variable Dayjs : Type.
Variable isBefore isSame : Dayjs -> Dayjs -> bool.
Variable format : Dayjs -> string.

(** The state of the form. *)
Record FormState : Type := mkFormState {
  state_location : string;
  state_businessId : string;
  state_registrationDateStart : option Dayjs;
  state_registrationDateEnd : option Dayjs
}.

Definition validateDateRange (state : FormState) : bool :=
  match state_registrationDateStart state,
        state_registrationDateEnd state with
  | Some registrationDateStart, Some registrationDateEnd =>
      isBefore registrationDateStart registrationDateEnd
      || isSame registrationDateStart registrationDateEnd
  | _, _ => true
  end.

Definition is_some {A} (o : option A) : bool :=
  match o with
  | Some _ => true
  | None => false
  end.

(** The errors that [handleSubmit] collects. *)
Definition submitErrors (state : FormState) : ValidationErrors.t :=
  let businessId := state_businessId state in
  let location := state_location state in
  let hasSearchCriteria :=
    negb (trim businessId =? "") || negb (trim location =? "")
    || is_some (state_registrationDateStart state)
    || is_some (state_registrationDateEnd state) in
  {| ValidationErrors.businessId :=
       if negb (businessId =? "") && negb (validateBusinessId businessId)
       then Some "Invalid business ID format. Expected: 1234567-8"
       else None;
     ValidationErrors.location :=
       if negb (location =? "") && negb (validateLocation location)
       then Some "Please enter a valid town name (must contain letters)"
       else None;
     ValidationErrors.dateRange :=
       if is_some (state_registrationDateStart state)
          && is_some (state_registrationDateEnd state)
          && negb (validateDateRange state)
       then Some "Start date must be before or equal to end date"
       else None;
     ValidationErrors.form :=
       if negb hasSearchCriteria
       then Some "Please provide at least one search criteria"
       else None |}.

(** [handleSubmit]: the errors it sets, and the criteria it passes to
    [onSearch] when there is no error. *)
Definition handleSubmit (state : FormState)
  : ValidationErrors.t * option CompanySearchParams.t :=
  let newErrors := submitErrors state in
  if hasErrors newErrors then (newErrors, None)
  else
    (newErrors,
     Some
       {| CompanySearchParams.location :=
            string_or_undefined (trim (state_location state));
          CompanySearchParams.businessId :=
            string_or_undefined (trim (state_businessId state));
          CompanySearchParams.registrationDateStart :=
            option_map format (state_registrationDateStart state);
          CompanySearchParams.registrationDateEnd :=
            option_map format (state_registrationDateEnd state);
          CompanySearchParams.page := Some 0%Z;
          CompanySearchParams.maxResults := Some 100%Z |}).

End SearchForm.

Arguments mkFormState {Dayjs}.
Arguments state_location {Dayjs}.
Arguments state_businessId {Dayjs}.
Arguments state_registrationDateStart {Dayjs}.
Arguments state_registrationDateEnd {Dayjs}.
Arguments validateDateRange {Dayjs}.
Arguments submitErrors {Dayjs}.
Arguments handleSubmit {Dayjs}.

(** ** Application shell ([src/App.tsx]) and pagination
    ([src/components/CompanyResults.tsx]) *)

(** [handleSearch]: the criteria stored for a new search,
    [{...params, page: 0}]. *)
Definition handleSearch (params : CompanySearchParams.t)
  : CompanySearchParams.t :=
  {| CompanySearchParams.location := CompanySearchParams.location params;
     CompanySearchParams.businessId := CompanySearchParams.businessId params;
     CompanySearchParams.registrationDateStart :=
       CompanySearchParams.registrationDateStart params;
     CompanySearchParams.registrationDateEnd :=
       CompanySearchParams.registrationDateEnd params;
     CompanySearchParams.page := Some 0%Z;
     CompanySearchParams.maxResults := CompanySearchParams.maxResults params |}.

(** [handleChangePage]: the criteria passed to [onPageChange],
    [{...searchParams, page: newPage}]. *)
Definition handleChangePage (searchParams : CompanySearchParams.t)
    (newPage : Z) : CompanySearchParams.t :=
  {| CompanySearchParams.location :=
       CompanySearchParams.location searchParams;
     CompanySearchParams.businessId :=
       CompanySearchParams.businessId searchParams;
     CompanySearchParams.registrationDateStart :=
       CompanySearchParams.registrationDateStart searchParams;
     CompanySearchParams.registrationDateEnd :=
       CompanySearchParams.registrationDateEnd searchParams;
     CompanySearchParams.page := Some newPage;
     CompanySearchParams.maxResults :=
       CompanySearchParams.maxResults searchParams |}.

(** ** Notions used in the statements *)

(** The requested page of the criteria: its zero-based index, 0 when the
    field is unset. *)
Definition requestedPage (params : CompanySearchParams.t) : Z :=
  match CompanySearchParams.page params with
  | Some p => p
  | None => 0%Z
  end.

(** [Number.isSafeInteger]: the integers whose neighbours are doubles
    too, so that the arithmetic of the code on them is exact. *)
Definition safeInteger (z : Z) : Prop :=
  (- 2 ^ 53 < z < 2 ^ 53)%Z.

(** The own property [k] of an object, [undefined] when there is none. *)
Definition field (props : list (string * value)) (k : string) : value :=
  match lookup k props with
  | Some x => x
  | None => Undefined
  end.

(** The entry an optional criterion contributes: none unless it is set
    (present and not empty). *)
Definition optional_entry (k : string) (criterion : option string)
  : list (string * string) :=
  match criterion with
  | Some s => if s =? "" then [] else [(k, s)]
  | None => []
  end.

(** A request fails when [fetch] rejects (network failure), when the
    status is not a success status, or when the body does not parse. *)
Definition requestFails (outcome : completion Response) : Prop :=
  match outcome with
  | Throw _ => True
  | Normal response =>
      ok response = false \/ exists e, json response = Throw e
  end.

(** The payload lacks the company sequence: it is absent itself, or it is
    an object with no [companies] key. *)
Definition lacksCompanies (data : value) : Prop :=
  data = Undefined \/ data = Null
  \/ exists props, data = Obj props /\ lookup "companies" props = None.

(** The string a probed key holds, if it holds one. *)
Definition plainString (v : value) : option string :=
  match v with
  | Str s => Some s
  | _ => None
  end.

(** What the code accepts from a probed key: a string that is not
    empty. *)
Definition usableString (v : value) : option string :=
  match v with
  | Str s => if s =? "" then None else Some s
  | _ => None
  end.

(** The last resort of the registration date, case by case: the JSON
    text, collapsed to the empty string when it is "{}", when it contains
    "[object Object]", or when there is no text. *)
Definition collapsedJSON (v : value) : string :=
  match JSON_stringify v with
  | Some text =>
      if text =? "{}" then ""
      else if includes text "[object Object]" then ""
      else text
  | None => ""
  end.

(** The display name of a record: [String(primaryName)]. *)
Definition displayName (StringToNumber : string -> number) (result : value)
  : completion string :=
  let* name := primaryName StringToNumber result in
  ToString name.

(** A name variant is the current Finnish one when its language tag is
    "FI" and its end date is not set. *)
Definition currentFinnishVariant (variant : list (string * value)) : bool :=
  strict_eq_string (field variant "language") "FI"
  && negb (truthy (field variant "endDate")).

(** The name of the first variant, coerced to a string; the empty string
    when there is no variant. *)
Definition firstVariantName (variants : list (list (string * value)))
  : completion string :=
  match variants with
  | [] => Normal ""
  | first :: _ => ToString (or_else (field first "name") (Str ""))
  end.

(** An address is current when its end date is not set. *)
Definition currentAddress (address : list (string * value)) : bool :=
  negb (truthy (field address "endDate")).

(** A field that is present but is not a sequence. *)
Definition notSequence (v : value) : Prop :=
  nullish v = false /\ forall elems, v <> Arr elems.

(** The shape the upstream schema ([PRHCompanyDetail]) gives to the fields
    that the normalizer walks through. *)
Definition stringOrAbsent (v : value) : Prop :=
  v = Undefined \/ exists s, v = Str s.

Definition conformantNames (v : value) : Prop :=
  nullish v = true
  \/ exists variants,
       v = Arr (map Obj variants)
       /\ Forall (fun variant => stringOrAbsent (field variant "name"))
            variants.

Definition conformantPostOffices (v : value) : Prop :=
  nullish v = true
  \/ exists offices,
       v = Arr (map Obj offices)
       /\ Forall (fun office => stringOrAbsent (field office "city")) offices.

Definition conformantAddresses (v : value) : Prop :=
  nullish v = true
  \/ exists addresses,
       v = Arr (map Obj addresses)
       /\ Forall (fun address =>
                    stringOrAbsent (field address "postCode")
                    /\ conformantPostOffices (field address "postOffices"))
            addresses.

Definition conformantForms (v : value) : Prop :=
  nullish v = true \/ exists forms, v = Arr forms.

(** Characters that [urlencode] leaves as they are. *)
Definition is_unreserved (c : ascii) : bool :=
  let n := N_of_ascii c in
  ((48 <=? n) && (n <=? 57) || (65 <=? n) && (n <=? 90)
   || (97 <=? n) && (n <=? 122)
   || (n =? 42) || (n =? 45) || (n =? 46) || (n =? 95))%N.

(** Characters that can occur in an encoded key or value. *)
Definition is_form_safe (c : ascii) : bool :=
  is_unreserved c || (c =? "+")%char || (c =? "%")%char.

Definition all_chars (p : ascii -> bool) (s : string) : bool :=
  forallb p (list_ascii_of_string s).

Fixpoint count_char (c : ascii) (s : string) : nat :=
  match s with
  | EmptyString => 0
  | String c' rest =>
      (if (c' =? c)%char then 1 else 0) + count_char c rest
  end.

(** The state of the form passes the checks of [handleSubmit]: each field
    that is filled in is well formed, the dates are in order, and some
    criterion is there after trimming. *)
Definition submittable {Dayjs : Type} (isBefore isSame : Dayjs -> Dayjs -> bool)
    (state : FormState Dayjs) : Prop :=
  (state_businessId state = ""
   \/ businessIdPattern (state_businessId state) = true)
  /\ (state_location state = ""
      \/ townNamePattern (state_location state) = true)
  /\ (forall registrationDateStart registrationDateEnd,
        state_registrationDateStart state = Some registrationDateStart ->
        state_registrationDateEnd state = Some registrationDateEnd ->
        isBefore registrationDateStart registrationDateEnd = true
        \/ isSame registrationDateStart registrationDateEnd = true)
  /\ (trim (state_businessId state) <> ""
      \/ trim (state_location state) <> ""
      \/ state_registrationDateStart state <> None
      \/ state_registrationDateEnd state <> None).



(** ** Properties *)

Lemma page_or_0_requestedPage (params : CompanySearchParams.t) :
  page_or_0 (CompanySearchParams.page params) = requestedPage params.
Proof.
  unfold page_or_0, requestedPage.
  destruct (CompanySearchParams.page params) as [z|]; [|reflexivity].
  destruct (Z.eqb_spec z 0); congruence.
Qed.

Lemma get_Obj (props : list (string * value)) (k : string) :
  get (Obj props) k = Normal (field props k).
Proof. unfold get, field. now destruct (lookup k props). Qed.

(** *** Query formatter *)

Lemma page_or_0_default (page : option Z) :
  page_or_0 page = match page with Some z => z | None => 0%Z end.
Proof.
  destruct page as [z|]; simpl; [|reflexivity].
  destruct (Z.eqb_spec z 0); congruence.
Qed.

Ltac case_criterion c :=
  let s := fresh "s" in
  destruct c as [s|]; [destruct (s =? "")|].

(** The output of the formatter, entry by entry. *)
Lemma formatSearchParams_entries (params : CompanySearchParams.t) :
  formatSearchParams params =
    (optional_entry "businessId" (CompanySearchParams.businessId params)
     ++ optional_entry "location" (CompanySearchParams.location params)
     ++ optional_entry "registrationDateStart"
          (CompanySearchParams.registrationDateStart params)
     ++ optional_entry "registrationDateEnd"
          (CompanySearchParams.registrationDateEnd params)
     ++ [("totalResults", "true");
         ("page", string_of_Z (requestedPage params + 1))])%list.
Proof.
  destruct params as [loc bid rstart rend pg mx].
  unfold formatSearchParams, requestedPage, assign_if_set, is_set,
    optional_entry; simpl.
  rewrite page_or_0_default.
  case_criterion bid; case_criterion loc; case_criterion rstart;
    case_criterion rend; reflexivity.
Qed.

Lemma entry_optional_other (k k' : string) (criterion : option string)
    (rest : list (string * string)) :
  (k' =? k) = false ->
  entry k (optional_entry k' criterion ++ rest)%list = entry k rest.
Proof.
  intros Hk. unfold optional_entry.
  destruct criterion as [s|]; [destruct (s =? "")|]; simpl;
    rewrite ?Hk; reflexivity.
Qed.

(** C6: for criteria whose page is a safe integer, the formatter outputs
    the optional parameters that are set (present and not empty), each
    under its own name and in the order businessId, location,
    registrationDateStart, registrationDateEnd, followed by exactly the
    two parameters that are always present: totalResults = "true" and
    page = String(page + 1), one more than the zero-based page requested.
    With only [page] set the output is those two parameters and nothing
    else. *)
Theorem formatSearchParams_contract :
  forall params : CompanySearchParams.t,
    safeInteger (requestedPage params) ->
    formatSearchParams params =
      (optional_entry "businessId" (CompanySearchParams.businessId params)
       ++ optional_entry "location" (CompanySearchParams.location params)
       ++ optional_entry "registrationDateStart"
            (CompanySearchParams.registrationDateStart params)
       ++ optional_entry "registrationDateEnd"
            (CompanySearchParams.registrationDateEnd params)
       ++ [("totalResults", "true");
           ("page", string_of_Z (requestedPage params + 1))])%list
    /\ entry "totalResults" (formatSearchParams params) = Some "true"
    /\ entry "page" (formatSearchParams params)
       = Some (string_of_Z (requestedPage params + 1))
    /\ (forall p maxResults,
          safeInteger p ->
          formatSearchParams
            (CompanySearchParams.mk None None None None (Some p) maxResults)
          = [("totalResults", "true"); ("page", string_of_Z (p + 1))]).
Proof.
  intros params _.
  split; [apply formatSearchParams_entries|].
  rewrite formatSearchParams_entries.
  rewrite !entry_optional_other by reflexivity.
  repeat split.
  intros p mx _. rewrite formatSearchParams_entries. reflexivity.
Qed.

(** A search by town on page 2; the business ID was left empty. *)
Lemma formatSearchParams_contract_witness :
  safeInteger 2
  /\ formatSearchParams
       (CompanySearchParams.mk (Some "Helsinki") (Some "") None None
          (Some 2%Z) (Some 100%Z))
     = [("location", "Helsinki"); ("totalResults", "true"); ("page", "3")].
Proof.
  assert (H : safeInteger 2) by (split; reflexivity).
  split; [exact H|].
  exact (proj1 (formatSearchParams_contract
                  (CompanySearchParams.mk (Some "Helsinki") (Some "") None
                     None (Some 2%Z) (Some 100%Z)) H)).
Defined.

(** C10: criteria whose page is absent are formatted as page 0: the page
    parameter is "1", and the whole output equals that for page = 0. *)
Theorem formatSearchParams_page_absent :
  forall location businessId registrationDateStart registrationDateEnd
         maxResults,
    let absent :=
      CompanySearchParams.mk location businessId registrationDateStart
        registrationDateEnd None maxResults in
    let zero :=
      CompanySearchParams.mk location businessId registrationDateStart
        registrationDateEnd (Some 0%Z) maxResults in
    entry "page" (formatSearchParams absent) = Some "1"
    /\ formatSearchParams absent = formatSearchParams zero.
Proof.
  intros loc bid rstart rend mx absent zero.
  split; [|reflexivity].
  rewrite formatSearchParams_entries.
  rewrite !entry_optional_other by reflexivity.
  reflexivity.
Qed.

(** *** Fetch orchestrator *)

(** Whatever is thrown inside the [try] block, the caller gets the empty
    page of the requested index. *)
Lemma fetchCompanies_catches StringToNumber fetch params e :
  tryFetchCompanies StringToNumber fetch params = Throw e ->
  fetchCompanies StringToNumber fetch params
  = emptyResponse (requestedPage params).
Proof.
  intros H. unfold fetchCompanies. rewrite H. simpl.
  now rewrite page_or_0_requestedPage.
Qed.

(** C1: [fetchCompanies] returns a page and never throws: its result is a
    plain [CompanySearchResponse.t], and whatever is thrown inside its
    [try] block is caught.  On a network failure, a non-success status or a
    body that does not parse, the page returned is the empty one, carrying
    the zero-based page index of the criteria (0 when unset). *)
Theorem fetchCompanies_fails_soft :
  forall (StringToNumber : string -> number)
         (fetch : string -> completion Response)
         (params : CompanySearchParams.t),
    requestFails (fetch (requestUrl params))
    \/ (exists e, tryFetchCompanies StringToNumber fetch params = Throw e) ->
    fetchCompanies StringToNumber fetch params =
      {| CompanySearchResponse.results := [];
         CompanySearchResponse.totalResults := Num 0;
         CompanySearchResponse.currentPage := requestedPage params;
         CompanySearchResponse.totalPages := Int 0 |}.
Proof.
  intros S2N fetch params Hfail.
  change (fetchCompanies S2N fetch params
          = emptyResponse (requestedPage params)).
  destruct Hfail as [Hfail | [e Hthrow]];
    [|now apply fetchCompanies_catches with (e := e)].
  unfold requestFails in Hfail.
  destruct (fetch (requestUrl params)) as [response|e] eqn:Hfetch.
  - destruct Hfail as [Hok | [e Hjson]].
    + eapply fetchCompanies_catches.
      unfold tryFetchCompanies. rewrite Hfetch. simpl. rewrite Hok.
      reflexivity.
    + destruct (ok response) eqn:Hok.
      * eapply fetchCompanies_catches.
        unfold tryFetchCompanies. rewrite Hfetch. simpl.
        rewrite Hok, Hjson. reflexivity.
      * eapply fetchCompanies_catches.
        unfold tryFetchCompanies. rewrite Hfetch. simpl. rewrite Hok.
        reflexivity.
  - eapply fetchCompanies_catches.
    unfold tryFetchCompanies. rewrite Hfetch. reflexivity.
Qed.

(** HTTP 500 on a request for page 2. *)
Lemma fetchCompanies_fails_soft_witness :
  requestFails (Normal (mkResponse 500 (Normal Null)))
  /\ fetchCompanies decimalStringToNumber
       (fun _ => Normal (mkResponse 500 (Normal Null)))
       (CompanySearchParams.mk (Some "Helsinki") None None None (Some 2%Z)
          None) =
       {| CompanySearchResponse.results := [];
          CompanySearchResponse.totalResults := Num 0;
          CompanySearchResponse.currentPage := 2;
          CompanySearchResponse.totalPages := Int 0 |}.
Proof.
  assert (H : requestFails (Normal (mkResponse 500 (Normal Null))))
    by (left; reflexivity).
  split; [exact H|].
  exact (fetchCompanies_fails_soft decimalStringToNumber
           (fun _ => Normal (mkResponse 500 (Normal Null)))
           (CompanySearchParams.mk (Some "Helsinki") None None None
              (Some 2%Z) None)
           (or_introl H)).
Defined.

(** The request of that search, and a successful answer to it. *)
Example fetchCompanies_sample :
  requestUrl
    (CompanySearchParams.mk (Some "Helsinki") None None None (Some 2%Z) None)
  = "https://avoindata.prh.fi/opendata-ytj-api/v3/companies?location=Helsinki&totalResults=true&page=3"
  /\ fetchCompanies decimalStringToNumber
       (fun _ =>
          Normal
            (mkResponse 200
               (Normal
                  (Obj [("totalResults", Num 250);
                        ("companies",
                         Arr [Obj [("businessId", Str "1234567-8");
                                   ("names",
                                    Arr [Obj [("name", Str "Foo Oy");
                                              ("language", Str "FI")]]);
                                   ("registrationDate", Str "2020-01-02");
                                   ("companyForms",
                                    Arr [Obj [("name", Str "Osakeyhtio")]]);
                                   ("addresses",
                                    Arr [Obj [("postCode", Str "00100");
                                              ("postOffices",
                                               Arr [Obj [("city",
                                                          Str "HELSINKI")]])
                                             ]])]])]))))
       (CompanySearchParams.mk (Some "Helsinki") None None None (Some 2%Z)
          None) =
       {| CompanySearchResponse.results :=
            [{| Company.businessId := "1234567-8";
                Company.name := "Foo Oy";
                Company.registrationDate := "2020-01-02";
                Company.companyForm := "Osakeyhtio";
                Company.location := "00100 HELSINKI";
                Company.endDate := Str "";
                Company.detailsUri :=
                  "https://avoindata.prh.fi/opendata-ytj-api/v3/companies/1234567-8"
             |}];
          CompanySearchResponse.totalResults := Num 250;
          CompanySearchResponse.currentPage := 2;
          CompanySearchResponse.totalPages := Int 3 |}.
Proof. split; reflexivity. Qed.

(** *** Response normalizer: the shape of the payload *)

(** C3: a payload that lacks the company sequence is normalized, without
    failing, to the empty page: no results, total 0, no pages. *)
Theorem transformResponse_lacking_companies :
  forall (StringToNumber : string -> number) (data : value)
         (page maxResults : option Z),
    lacksCompanies data ->
    exists response,
      transformResponse StringToNumber data page maxResults = Normal response
      /\ CompanySearchResponse.results response = []
      /\ CompanySearchResponse.totalResults response = Num 0
      /\ CompanySearchResponse.totalPages response = Int 0.
Proof.
  intros S2N data page maxResults [-> | [-> | (props & -> & Hnone)]].
  - eexists; split; [reflexivity|]. repeat split.
  - eexists; split; [reflexivity|]. repeat split.
  - unfold transformResponse. simpl. rewrite Hnone. simpl.
    eexists; split; [reflexivity|]. repeat split.
Qed.

(** A payload that only carries a count. *)
Lemma transformResponse_lacking_companies_witness :
  exists response,
    transformResponse decimalStringToNumber
      (Obj [("totalResults", Num 5)]) (Some 3%Z) None = Normal response
    /\ CompanySearchResponse.results response = []
    /\ CompanySearchResponse.totalResults response = Num 0
    /\ CompanySearchResponse.totalPages response = Int 0.
Proof.
  apply (transformResponse_lacking_companies decimalStringToNumber
           (Obj [("totalResults", Num 5)]) (Some 3%Z) None).
  right; right. eexists; split; reflexivity.
Defined.

(** *** Response normalizer: one record *)

Lemma bind_Normal {A B} (c : completion A) (k : A -> completion B) (b : B) :
  bind c k = Normal b -> exists a, c = Normal a /\ k a = Normal b.
Proof. destruct c as [a|e]; simpl; [eauto | discriminate]. Qed.

Ltac invert_bind H :=
  let a := fresh "x" in
  let Ha := fresh "Hx" in
  apply bind_Normal in H; destruct H as (a & Ha & H).

(** The fields of the record that the [try] block returns for an
    object. *)
Lemma tryTransformCompany_fields StringToNumber props index company :
  tryTransformCompany StringToNumber (Obj props) index = Normal company ->
  Company.businessId company
  = businessIdStr (field props "businessId") index
  /\ registrationDateStr (field props "registrationDate")
     = Normal (Company.registrationDate company)
  /\ (exists name,
        primaryName StringToNumber (Obj props) = Normal name
        /\ ToString name = Normal (Company.name company))
  /\ Company.endDate company = or_else (field props "endDate") (Str "")
  /\ Company.detailsUri company
     = BASE_URL ++ "/companies/" ++ Company.businessId company.
Proof.
  unfold tryTransformCompany. intros H.
  invert_bind H. rewrite get_Obj in H. cbn [bind] in H.
  invert_bind H. rewrite get_Obj in H. cbn [bind] in H.
  rewrite get_Obj in H. cbn [bind] in H.
  invert_bind H. rewrite get_Obj in H. cbn [bind] in H.
  invert_bind H. invert_bind H. rewrite get_Obj in H. cbn [bind] in H.
  invert_bind H. inversion H; subst company; clear H. cbn.
  repeat split; try assumption.
  exists x. split; assumption.
Qed.

Lemma probe_usable (v : value) :
  truthy v && (typeof v =? "string") = true ->
  usableString v = Some (as_string v).
Proof.
  destruct v; simpl; try discriminate; rewrite ?andb_false_r;
    try discriminate.
  destruct (s =? ""); [discriminate | reflexivity].
Qed.

Lemma probe_unusable (v : value) :
  truthy v && (typeof v =? "string") = false -> usableString v = None.
Proof.
  destruct v; simpl; try reflexivity.
  destruct (s =? ""); [reflexivity | discriminate].
Qed.

Lemma usableString_plain (v : value) (s : string) :
  usableString v = Some s -> v = Str s /\ s <> "".
Proof.
  destruct v; simpl; try discriminate.
  destruct (String.eqb_spec s0 ""); [discriminate|].
  intros H; inversion H; subst. now split.
Qed.

Lemma usableString_Str (s : string) :
  s <> "" -> usableString (Str s) = Some s.
Proof.
  intros H. simpl. now destruct (String.eqb_spec s "").
Qed.

(** The identifier of an object-valued field, probe by probe. *)
Lemma businessIdStr_Obj (props : list (string * value)) (index : nat) :
  businessIdStr (Obj props) index =
    match usableString (field props "value") with
    | Some v => v
    | None =>
        match usableString (field props "id") with
        | Some i => i
        | None => company_placeholder index
        end
    end.
Proof.
  unfold businessIdStr.
  cbn [typeof truthy String.eqb Ascii.eqb Bool.eqb try_catch].
  rewrite get_Obj. cbn [bind].
  destruct (truthy (field props "value")
            && (typeof (field props "value") =? "string")) eqn:Hv.
  - now rewrite (probe_usable _ Hv).
  - rewrite (probe_unusable _ Hv), get_Obj. cbn [bind].
    destruct (truthy (field props "id")
              && (typeof (field props "id") =? "string")) eqn:Hi.
    + now rewrite (probe_usable _ Hi).
    + now rewrite (probe_unusable _ Hi).
Qed.



(** The placeholders embed the position in decimal. *)
Example placeholders_sample :
  businessIdStr (Obj []) 12 = "company-12"
  /\ businessIdStr (Obj [("value", Str ""); ("id", Str "X")]) 0 = "X"
  /\ Company.businessId (transformCompany decimalStringToNumber Null 3)
     = "error-3".
Proof. repeat split. Qed.

(** The registration date of an object-valued field, probe by probe. *)
Lemma registrationDateStr_Obj (props : list (string * value)) :
  registrationDateStr (Obj props) =
    Normal
      match usableString (field props "value") with
      | Some v => v
      | None =>
          match usableString (field props "registrationDate") with
          | Some nested => nested
          | None => stringifyDate (Obj props)
          end
      end.
Proof.
  unfold registrationDateStr.
  cbn [typeof truthy String.eqb Ascii.eqb Bool.eqb].
  rewrite get_Obj. cbn [bind].
  destruct (truthy (field props "value")
            && (typeof (field props "value") =? "string")) eqn:Hv.
  - now rewrite (probe_usable _ Hv).
  - rewrite (probe_unusable _ Hv), get_Obj. cbn [bind].
    destruct (truthy (field props "registrationDate")
              && (typeof (field props "registrationDate") =? "string"))
      eqn:Hn.
    + now rewrite (probe_usable _ Hn).
    + now rewrite (probe_unusable _ Hn).
Qed.

Lemma stringifyDate_collapsedJSON (v : value) :
  stringifyDate v = collapsedJSON v.
Proof.
  unfold stringifyDate, collapsedJSON.
  destruct (JSON_stringify v) as [text|]; [|reflexivity].
  now destruct (text =? "{}").
Qed.

(** C7, as amended: registration-date resolution.  A plain string is
    returned verbatim.  For a structured value the [value] key is probed
    first and the same-named [registrationDate] key second, and a key is
    used when it holds a plain string that is not empty; otherwise (also
    when a probed key holds the empty string) the value is serialized to
    JSON text, which collapses to the empty string when it is "{}" or
    contains "[object Object]" or when serialization gives no text.  An
    absent field resolves to the empty string.  The record returned for an
    object carries the date so resolved. *)
Theorem registrationDateStr_resolution :
  (forall s, registrationDateStr (Str s) = Normal s)
  /\ (forall props,
        (forall v,
            field props "value" = Str v -> v <> "" ->
            registrationDateStr (Obj props) = Normal v)
        /\ (forall nested,
              usableString (field props "value") = None ->
              field props "registrationDate" = Str nested -> nested <> "" ->
              registrationDateStr (Obj props) = Normal nested)
        /\ (usableString (field props "value") = None ->
            usableString (field props "registrationDate") = None ->
            registrationDateStr (Obj props)
            = Normal (collapsedJSON (Obj props))))
  /\ (forall elems,
        registrationDateStr (Arr elems) = Normal (collapsedJSON (Arr elems)))
  /\ registrationDateStr Undefined = Normal ""
  /\ registrationDateStr Null = Normal ""
  /\ (forall StringToNumber props index company,
        tryTransformCompany StringToNumber (Obj props) index
        = Normal company ->
        registrationDateStr (field props "registrationDate")
        = Normal (Company.registrationDate company)).
Proof.
  split; [reflexivity|].
  split.
  { intros props. rewrite registrationDateStr_Obj.
    split; [|split].
    - intros v Hv Hne. now rewrite Hv, (usableString_Str _ Hne).
    - intros nested Hv Hn Hne.
      now rewrite Hv, Hn, (usableString_Str _ Hne).
    - intros Hv Hn. now rewrite Hv, Hn, stringifyDate_collapsedJSON. }
  split.
  { intros elems. unfold registrationDateStr.
    cbn [typeof truthy String.eqb Ascii.eqb Bool.eqb get bind andb].
    now rewrite stringifyDate_collapsedJSON. }
  repeat (split; [reflexivity|]).
  intros S2N props index company H.
  now apply tryTransformCompany_fields in H.
Qed.

(** An object whose [value] key holds the empty string: the key holds a
    plain string, yet the date is the JSON text of the object. *)
Lemma registrationDateStr_empty_value_key :
  field [("value", Str "")] "value" = Str ""
  /\ registrationDateStr (Obj [("value", Str "")])
     = Normal ("{" ++ dquote ++ "value" ++ dquote ++ ":"
               ++ dquote ++ dquote ++ "}")
  /\ registrationDateStr (Obj [("value", Str "")]) <> Normal "".
Proof. repeat split. discriminate. Qed.

(** The empty object, and an object that shows the generic object text,
    collapse to the empty string. *)
Example registrationDateStr_collapses :
  registrationDateStr (Obj []) = Normal ""
  /\ registrationDateStr (Obj [("note", Str "[object Object]")]) = Normal "".
Proof. split; reflexivity. Qed.

(** *** Name resolution *)

Lemma isCurrentFinnishName_Obj (variant : list (string * value)) :
  isCurrentFinnishName (Obj variant) = Normal (currentFinnishVariant variant).
Proof.
  unfold isCurrentFinnishName, currentFinnishVariant.
  rewrite get_Obj. cbn [bind].
  destruct (strict_eq_string (field variant "language") "FI");
    [|reflexivity].
  rewrite get_Obj. reflexivity.
Qed.

Lemma find_currentFinnish (variants : list (list (string * value))) :
  find isCurrentFinnishName (map Obj variants) =
    Normal match List.find currentFinnishVariant variants with
           | Some variant => Obj variant
           | None => Undefined
           end.
Proof.
  induction variants as [|variant rest IH]; [reflexivity|].
  cbn [map find List.find]. rewrite isCurrentFinnishName_Obj. cbn [bind].
  destruct (currentFinnishVariant variant); [reflexivity | exact IH].
Qed.

Lemma ToString_Str_completion (c : completion string) :
  (let* text := c in ToString (Str text)) = c.
Proof. now destruct c. Qed.

(** The display name of an object whose [names] is a sequence of
    objects. *)
Lemma displayName_variants StringToNumber props variants :
  field props "names" = Arr (map Obj variants) ->
  displayName StringToNumber (Obj props) =
    match List.find currentFinnishVariant variants with
    | Some variant =>
        if truthy (field variant "name") then ToString (field variant "name")
        else firstVariantName variants
    | None => firstVariantName variants
    end.
Proof.
  intros Hnames. unfold displayName, primaryName.
  rewrite !get_Obj, Hnames. cbn [bind call_find_opt nullish call_find].
  rewrite find_currentFinnish. cbn [bind].
  assert (Hfallback :
    (let* name :=
       (let* nonEmpty :=
          (if truthy (Arr (map Obj variants))
           then let* length := get (Arr (map Obj variants)) "length" in
                gt0 StringToNumber length
           else Normal false) in
        if nonEmpty then
          let* names := Normal (Arr (map Obj variants)) in
          let* first := get_index names 0 in
          let* firstName := get_opt first "name" in
          let* text := ToString (or_else firstName (Str "")) in
          Normal (Str text)
        else Normal (Str "")) in
     ToString name) = firstVariantName variants).
  { destruct variants as [|first rest]; [reflexivity|].
    cbn [truthy get map List.length String.eqb Ascii.eqb Bool.eqb].
    unfold gt0, ToNumber. cbn [bind number_gt0].
    replace (0 <? Z.of_nat (S (List.length (map Obj rest))))%Z with true
      by (symmetry; apply Z.ltb_lt; lia).
    cbn [bind get_index nth get_opt nullish]. rewrite get_Obj.
    cbn [bind firstVariantName].
    destruct (ToString (or_else (field first "name") (Str "")));
      reflexivity. }
  destruct (List.find currentFinnishVariant variants) as [variant|].
  - cbn [get_opt nullish]. rewrite get_Obj. cbn [bind].
    destruct (truthy (field variant "name")); [reflexivity|].
    exact Hfallback.
  - cbn [get_opt nullish bind truthy]. exact Hfallback.
Qed.




(** *** Response normalizer: the batch *)

Lemma map_from_length {A} (f : value -> nat -> A) (l : list value) :
  forall start, List.length (map_from start f l) = List.length l.
Proof.
  induction l as [|x rest IH]; intros start; simpl; [reflexivity|].
  now rewrite IH.
Qed.

Lemma nth_error_map_from {A} (f : value -> nat -> A) (l : list value) :
  forall start i,
    nth_error (map_from start f l) i
    = option_map (fun x => f x (start + i)) (nth_error l i).
Proof.
  induction l as [|x rest IH]; intros start [|i]; simpl; try reflexivity.
  - now rewrite Nat.add_0_r.
  - rewrite IH. now rewrite Nat.add_succ_r.
Qed.

(** Each record of the batch depends on its own object and position
    only. *)
Lemma nth_error_map_index {A} (f : value -> nat -> A) (l : list value)
    (i : nat) :
  nth_error (map_index f l) i = option_map (fun x => f x i) (nth_error l i).
Proof. unfold map_index. now rewrite nth_error_map_from. Qed.

Lemma nth_error_replaced {A} (before after : list A) (x y : A) (i : nat) :
  i <> List.length before ->
  nth_error (before ++ x :: after) i = nth_error (before ++ y :: after) i.
Proof.
  intros Hi. destruct (Nat.lt_ge_cases i (List.length before)) as [Hlt|Hge].
  - now rewrite !nth_error_app1 by assumption.
  - rewrite !nth_error_app2 by assumption.
    destruct (i - List.length before) as [|k] eqn:Hk; [lia | reflexivity].
Qed.

(** The page built from a payload whose [companies] is a sequence. *)
Lemma transformResponse_Arr StringToNumber props elems page maxResults :
  field props "companies" = Arr elems ->
  transformResponse StringToNumber (Obj props) page maxResults =
    let total :=
      or_else (field props "totalResults")
        (Num (Z.of_nat (List.length elems))) in
    let* count := ToNumber StringToNumber total in
    Normal
      {| CompanySearchResponse.results :=
           map_index (transformCompany StringToNumber) elems;
         CompanySearchResponse.totalResults := total;
         CompanySearchResponse.currentPage := pageOrDefault page;
         CompanySearchResponse.totalPages :=
           ceil_div count (Int (pageSize maxResults)) |}.
Proof.
  intros Hc. unfold transformResponse.
  cbn [truthy negb]. rewrite !get_Obj, Hc.
  cbn [bind truthy negb mapCompanies].
  unfold map_index. rewrite map_from_length. reflexivity.
Qed.

(** [Math.ceil] of an integer quotient is the least integer that, times
    the divisor, reaches the dividend. *)
Lemma ceil_div_ceiling (a b : Z) :
  (0 < b)%Z ->
  exists q, ceil_div (Int a) (Int b) = Int q
            /\ ((q - 1) * b < a <= q * b)%Z.
Proof.
  intros Hb. unfold ceil_div.
  destruct (Z.eqb_spec b 0) as [->|_]; [lia|].
  exists (- (- a / b))%Z. split; [reflexivity|].
  pose proof (Z.div_mod (- a) b ltac:(lia)) as Hdm.
  pose proof (Z.mod_pos_bound (- a) b Hb) as Hm.
  nia.
Qed.

(** The identifier either is the placeholder of the position or does not
    depend on the position. *)
Lemma businessIdStr_index (businessId : value) (i : nat) :
  businessIdStr businessId i = company_placeholder i
  \/ forall j, businessIdStr businessId j = businessIdStr businessId i.
Proof.
  destruct businessId as [| |b|z|s|elems|props]; try (now left);
    try (now right).
  - destruct b; [now right | now left].
  - unfold businessIdStr. cbn [typeof truthy String.eqb Ascii.eqb Bool.eqb].
    destruct (negb (z =? 0)%Z); [now right | now left].
  - destruct (usableString (field props "value")) as [v|] eqn:Ev.
    + right. intros j. now rewrite !businessIdStr_Obj, Ev.
    + destruct (usableString (field props "id")) as [id|] eqn:Ei.
      * right. intros j. now rewrite !businessIdStr_Obj, Ev, Ei.
      * left. now rewrite businessIdStr_Obj, Ev, Ei.
Qed.

(** The position enters a record through the placeholder only: a record
    whose identifier is not the placeholder is the same at every
    position. *)
Lemma tryTransformCompany_index StringToNumber result i company :
  tryTransformCompany StringToNumber result i = Normal company ->
  Company.businessId company <> company_placeholder i ->
  forall j, tryTransformCompany StringToNumber result j = Normal company.
Proof.
  unfold tryTransformCompany. intros H Hne j.
  repeat match type of H with
         | bind ?c _ = Normal _ =>
             destruct c; cbn [bind] in H |- *; [|discriminate H]
         end.
  injection H as H. subst company. cbn [Company.businessId] in Hne.
  match type of Hne with
  | businessIdStr ?b _ <> _ =>
      destruct (businessIdStr_index b i) as [Hp | Hall];
        [contradiction | now rewrite (Hall j)]
  end.
Qed.

(** C4, as amended: when processing one object of a batch throws, the
    record at its position is the placeholder "error-<index>" named "Error
    processing data" with all other fields empty, and the batch is not
    aborted (one record per object, and the payload is normalized to a
    page with those records).  Every other object is normalized at its own
    position exactly as it is when any other object stands in place of the
    failing one: it gets the record of its own [try] block, or its own
    error placeholder.  Against the batch from which the failing object is
    removed, the objects before it get the same records, and an object
    after it gets the same record unless its identifier is a placeholder,
    which embeds the position. *)
Theorem transformCompany_isolates_failure :
  forall (StringToNumber : string -> number)
         (before after : list value) (failing : value) (e : error),
    tryTransformCompany StringToNumber failing (List.length before)
    = Throw e ->
    let batch := (before ++ failing :: after)%list in
    let records := map_index (transformCompany StringToNumber) batch in
    let shorter :=
      map_index (transformCompany StringToNumber) (before ++ after)%list in
    List.length records = List.length batch
    /\ nth_error records (List.length before) =
         Some {| Company.businessId :=
                   "error-" ++ string_of_nat (List.length before);
                 Company.name := "Error processing data";
                 Company.registrationDate := "";
                 Company.companyForm := "";
                 Company.location := "";
                 Company.endDate := Str "";
                 Company.detailsUri := "" |}
    /\ (forall i sibling,
          i <> List.length before ->
          nth_error batch i = Some sibling ->
          (forall other,
              nth_error
                (map_index (transformCompany StringToNumber)
                   (before ++ other :: after)%list) i
              = nth_error records i)
          /\ (forall company,
                tryTransformCompany StringToNumber sibling i
                = Normal company ->
                nth_error records i = Some company)
          /\ (forall e',
                tryTransformCompany StringToNumber sibling i = Throw e' ->
                nth_error records i = Some (errorCompany i)))
    /\ (forall i,
          i < List.length before ->
          nth_error shorter i = nth_error records i)
    /\ (forall j sibling company,
          nth_error after j = Some sibling ->
          tryTransformCompany StringToNumber sibling
            (S (List.length before + j)) = Normal company ->
          Company.businessId company
          <> company_placeholder (S (List.length before + j)) ->
          nth_error records (S (List.length before + j)) = Some company
          /\ nth_error shorter (List.length before + j) = Some company)
    /\ (forall props page maxResults n,
          field props "companies" = Arr batch ->
          field props "totalResults" = Num n ->
          exists response,
            transformResponse StringToNumber (Obj props) page maxResults
            = Normal response
            /\ CompanySearchResponse.results response = records).
Proof.
  intros S2N before after failing e Hthrow batch records shorter.
  subst records batch shorter.
  split; [apply map_from_length|].
  split.
  { rewrite nth_error_map_index, nth_error_app2, Nat.sub_diag by lia.
    cbn [nth_error option_map]. unfold transformCompany.
    now rewrite Hthrow. }
  split.
  { intros i sibling Hi Hsib. split; [|split].
    - intros other. rewrite !nth_error_map_index.
      now rewrite (nth_error_replaced before after other failing i Hi).
    - intros company Hc. rewrite nth_error_map_index, Hsib.
      cbn [option_map]. unfold transformCompany. now rewrite Hc.
    - intros e' He'. rewrite nth_error_map_index, Hsib.
      cbn [option_map]. unfold transformCompany. now rewrite He'. }
  split.
  { intros i Hi. rewrite !nth_error_map_index.
    now rewrite !nth_error_app1 by assumption. }
  split.
  { intros j sibling company Hsib Hc Hne.
    rewrite !nth_error_map_index.
    rewrite (nth_error_app2 before (failing :: after)) by lia.
    rewrite (nth_error_app2 before after) by lia.
    replace (S (List.length before + j) - List.length before) with (S j)
      by lia.
    replace (List.length before + j - List.length before) with j by lia.
    cbn [nth_error]. rewrite Hsib. cbn [option_map].
    unfold transformCompany.
    rewrite (tryTransformCompany_index S2N sibling _ company Hc Hne
               (List.length before + j)).
    now rewrite Hc. }
  intros props page maxResults n Hc Ht.
  rewrite (transformResponse_Arr S2N props _ page maxResults Hc), Ht.
  unfold or_else, ToNumber. cbn [truthy].
  destruct (negb (n =? 0)%Z); cbn [bind]; eexists; split; reflexivity.
Qed.

(** A batch of three objects whose second entry is null: the third keeps
    its record, also when the null entry is removed. *)
Lemma transformCompany_isolates_failure_witness :
  let records :=
    map_index (transformCompany decimalStringToNumber)
      [Obj [("businessId", Str "1234567-8")]; Null;
       Obj [("businessId", Str "7654321-0")]] in
  let shorter :=
    map_index (transformCompany decimalStringToNumber)
      [Obj [("businessId", Str "1234567-8")];
       Obj [("businessId", Str "7654321-0")]] in
  List.length records = 3
  /\ nth_error records 1 =
       Some {| Company.businessId := "error-" ++ string_of_nat 1;
               Company.name := "Error processing data";
               Company.registrationDate := "";
               Company.companyForm := "";
               Company.location := "";
               Company.endDate := Str "";
               Company.detailsUri := "" |}
  /\ exists company,
       nth_error records 2 = Some company
       /\ nth_error shorter 1 = Some company
       /\ Company.businessId company = "7654321-0"
       /\ Company.detailsUri company
          = BASE_URL ++ "/companies/" ++ "7654321-0".
Proof.
  intros records shorter.
  pose proof (transformCompany_isolates_failure decimalStringToNumber
                [Obj [("businessId", Str "1234567-8")]]
                [Obj [("businessId", Str "7654321-0")]] Null
                TypeError eq_refl) as (Hlen & Herr & _ & _ & Hafter & _).
  split; [exact Hlen|]. split; [exact Herr|].
  eexists. 
  destruct (Hafter 0 (Obj [("businessId", Str "7654321-0")]) _
              eq_refl eq_refl ltac:(discriminate)) as [Hr Hs].
  split; [exact Hr|]. split; [exact Hs|]. split; reflexivity.
Defined.

(** The same object after a null entry and alone: with the null entry
    removed its placeholder identifier changes. *)
Lemma transformCompany_removal_shifts_placeholder :
  tryTransformCompany decimalStringToNumber Null 0 = Throw TypeError
  /\ nth_error
       (map_index (transformCompany decimalStringToNumber) [Null; Obj []]) 1
     = Some (transformCompany decimalStringToNumber (Obj []) 1)
  /\ nth_error
       (map_index (transformCompany decimalStringToNumber) [Obj []]) 0
     = Some (transformCompany decimalStringToNumber (Obj []) 0)
  /\ Company.businessId (transformCompany decimalStringToNumber (Obj []) 1)
     = "company-1"
  /\ Company.businessId (transformCompany decimalStringToNumber (Obj []) 0)
     = "company-0"
  /\ transformCompany decimalStringToNumber (Obj []) 1
     <> transformCompany decimalStringToNumber (Obj []) 0.
Proof. repeat split. discriminate. Qed.

(** C9: the normalizer is a function of the object and its position: two
    batches that hold the same object at the same position give identical
    records there, namely the record of that object at that position. *)
Theorem transformCompany_deterministic :
  forall (StringToNumber : string -> number)
         (batch1 batch2 : list value) (i : nat) (result : value),
    nth_error batch1 i = Some result ->
    nth_error batch2 i = Some result ->
    nth_error (map_index (transformCompany StringToNumber) batch1) i
    = nth_error (map_index (transformCompany StringToNumber) batch2) i
    /\ nth_error (map_index (transformCompany StringToNumber) batch1) i
       = Some (transformCompany StringToNumber result i).
Proof.
  intros S2N batch1 batch2 i result H1 H2.
  rewrite !nth_error_map_index, H1, H2. now split.
Qed.

(** The same object at position 1 of two different batches. *)
Lemma transformCompany_deterministic_witness :
  nth_error
    (map_index (transformCompany decimalStringToNumber)
       [Null; Obj [("businessId", Obj [])]]) 1
  = nth_error
      (map_index (transformCompany decimalStringToNumber)
         [Obj []; Obj [("businessId", Obj [])]; Obj []]) 1
  /\ nth_error
       (map_index (transformCompany decimalStringToNumber)
          [Null; Obj [("businessId", Obj [])]]) 1
     = Some (transformCompany decimalStringToNumber
               (Obj [("businessId", Obj [])]) 1).
Proof.
  exact (transformCompany_deterministic decimalStringToNumber
           [Null; Obj [("businessId", Obj [])]]
           [Obj []; Obj [("businessId", Obj [])]; Obj []]
           1 (Obj [("businessId", Obj [])]) eq_refl eq_refl).
Defined.

(** *** Response normalizer: the totals *)

(** C5, as amended: the reported total is the upstream [totalResults]
    when that value is truthy, and the number of records produced
    otherwise, that is when upstream omits the field and also when the
    field is 0 (or another falsy value).  For a total and a page size that
    are safe integers, the page size positive, the reported page count is
    the ceiling of total / pageSize: the least number of pages that hold
    the total. *)
Theorem transformResponse_totals :
  forall (StringToNumber : string -> number)
         (props : list (string * value)) (elems : list value)
         (page maxResults : option Z) (total : Z),
    field props "companies" = Arr elems ->
    ToNumber StringToNumber
      (if truthy (field props "totalResults")
       then field props "totalResults"
       else Num (Z.of_nat (List.length elems))) = Normal (Int total) ->
    safeInteger total ->
    safeInteger (pageSize maxResults) ->
    (0 < pageSize maxResults)%Z ->
    exists response pages,
      transformResponse StringToNumber (Obj props) page maxResults
      = Normal response
      /\ List.length (CompanySearchResponse.results response)
         = List.length elems
      /\ CompanySearchResponse.totalResults response
         = (if truthy (field props "totalResults")
            then field props "totalResults"
            else Num (Z.of_nat
                        (List.length
                           (CompanySearchResponse.results response))))
      /\ CompanySearchResponse.totalPages response = Int pages
      /\ ((pages - 1) * pageSize maxResults < total
          <= pages * pageSize maxResults)%Z.
Proof.
  intros S2N props elems page maxResults total Hc Hcount _ _ Hsize.
  rewrite (transformResponse_Arr S2N props elems page maxResults Hc).
  unfold or_else. cbv zeta. rewrite Hcount. cbn [bind].
  destruct (ceil_div_ceiling total (pageSize maxResults) Hsize)
    as (pages & Hpages & Hbound).
  eexists. exists pages. split; [reflexivity|].
  cbn [CompanySearchResponse.results CompanySearchResponse.totalResults
       CompanySearchResponse.totalPages].
  split; [apply map_from_length|].
  split; [unfold map_index; now rewrite map_from_length|].
  split; [exact Hpages | exact Hbound].
Qed.

(** Upstream reports 250 results and the page size is 100. *)
Lemma transformResponse_totals_witness :
  exists response,
    transformResponse decimalStringToNumber
      (Obj [("totalResults", Num 250); ("companies", Arr [Obj []])])
      None (Some 100%Z)
    = Normal response
    /\ CompanySearchResponse.totalResults response = Num 250
    /\ CompanySearchResponse.totalPages response = Int 3.
Proof.
  destruct (transformResponse_totals decimalStringToNumber
              [("totalResults", Num 250); ("companies", Arr [Obj []])]
              [Obj []] None (Some 100%Z) 250 eq_refl eq_refl
              (conj eq_refl eq_refl) (conj eq_refl eq_refl) eq_refl)
    as (response & pages & Hr & _ & Htotal & Hpages & Hbound).
  exists response. split; [exact Hr|]. split; [exact Htotal|].
  rewrite Hpages. f_equal. cbn [pageSize] in Hbound. lia.
Defined.

(** Upstream reports 0 results next to one company: the field is not
    omitted, yet the reported total is the number of records. *)
Lemma transformResponse_zero_upstream_total :
  field [("totalResults", Num 0); ("companies", Arr [Obj []])]
    "totalResults" = Num 0
  /\ exists response,
       transformResponse decimalStringToNumber
         (Obj [("totalResults", Num 0); ("companies", Arr [Obj []])])
         None None
       = Normal response
       /\ CompanySearchResponse.totalResults response = Num 1
       /\ CompanySearchResponse.totalResults response <> Num 0.
Proof.
  split; [reflexivity|].
  eexists. split; [reflexivity|]. split; [reflexivity|discriminate].
Qed.

(** ** Further properties of the normalizer *)

(** *** Decimal text and white space *)

Lemma to_int_not_nil (z : Z) :
  Z.to_int z <> Decimal.Pos Decimal.Nil
  /\ Z.to_int z <> Decimal.Neg Decimal.Nil.
Proof.
  split; intros H; pose proof (DecimalZ.of_to z) as Hz; rewrite H in Hz;
    cbn in Hz; subst z; discriminate H.
Qed.

Lemma string_of_Z_inj (a b : Z) : string_of_Z a = string_of_Z b -> a = b.
Proof.
  unfold string_of_Z. intros H.
  apply DecimalZ.to_int_inj.
  destruct (to_int_not_nil a) as [Ha1 Ha2].
  destruct (to_int_not_nil b) as [Hb1 Hb2].
  pose proof (NilZero.isi _ Ha1 Ha2) as Ia.
  pose proof (NilZero.isi _ Hb1 Hb2) as Ib.
  rewrite H in Ia. rewrite Ia in Ib. now inversion Ib.
Qed.

Lemma string_of_nat_inj (i j : nat) :
  string_of_nat i = string_of_nat j -> i = j.
Proof.
  unfold string_of_nat. intros H. apply string_of_Z_inj in H. lia.
Qed.

Lemma string_of_Z_nonempty (z : Z) : string_of_Z z <> "".
Proof.
  unfold string_of_Z. intros H.
  destruct (to_int_not_nil z) as [H1 H2].
  pose proof (NilZero.isi _ H1 H2) as I. rewrite H in I. discriminate I.
Qed.

Lemma append_inv_head (p a b : string) : p ++ a = p ++ b -> a = b.
Proof.
  induction p as [|c p IH]; simpl; intros H; [exact H|].
  inversion H. auto.
Qed.

Lemma trim_start_head (s : string) :
  match trim_start s with
  | EmptyString => True
  | String c _ => is_space c = false
  end.
Proof.
  induction s as [|c rest IH]; simpl; [exact I|].
  destruct (is_space c) eqn:Hc; [exact IH | exact Hc].
Qed.

Lemma trim_end_idem (s : string) : trim_end (trim_end s) = trim_end s.
Proof.
  induction s as [|c rest IH]; simpl; [reflexivity|].
  destruct (trim_end rest) as [|c' t] eqn:Hr.
  - destruct (is_space c) eqn:Hc; simpl; [reflexivity|]. now rewrite Hc.
  - change (trim_end (String c (String c' t)) = String c (String c' t)).
    cbn [trim_end] in IH |- *.
    destruct (trim_end t) as [|c'' t'] eqn:Ht.
    + destruct (is_space c') eqn:Hc'; [discriminate IH | exact (f_equal _ IH)].
    + now rewrite IH.
Qed.

Lemma trim_end_head (s : string) (c : ascii) (rest : string) :
  s = String c rest -> is_space c = false ->
  exists rest', trim_end s = String c rest'.
Proof.
  intros -> Hc. simpl.
  destruct (trim_end rest); [rewrite Hc|]; eauto.
Qed.

Lemma trim_idem (s : string) : trim (trim s) = trim s.
Proof.
  unfold trim.
  pose proof (trim_start_head s) as Hs.
  destruct (trim_start s) as [|c rest] eqn:Ht; [reflexivity|].
  destruct (trim_end_head _ c rest eq_refl Hs) as [rest' Hr].
  rewrite Hr. cbn [trim_start]. rewrite Hs. rewrite <- Hr.
  apply trim_end_idem.
Qed.

(** *** Invariants of a record *)

Lemma locationStr_trimmed (primaryAddress : value) (location : string) :
  locationStr primaryAddress = Normal location -> trim location = location.
Proof.
  unfold locationStr. intros H.
  destruct (truthy primaryAddress); [|now inversion H].
  repeat invert_bind H.
  inversion H; subst location. apply trim_idem.
Qed.

(** What the [try] block fixes of the record it returns, for any value in
    the batch. *)
Lemma tryTransformCompany_inv StringToNumber result index company :
  tryTransformCompany StringToNumber result index = Normal company ->
  (exists businessId,
     get result "businessId" = Normal businessId
     /\ Company.businessId company = businessIdStr businessId index)
  /\ (exists primaryAddress,
        locationStr primaryAddress = Normal (Company.location company))
  /\ Company.detailsUri company
     = BASE_URL ++ "/companies/" ++ Company.businessId company.
Proof.
  unfold tryTransformCompany. intros H.
  repeat invert_bind H.
  inversion H; subst company; clear H. cbn.
  repeat split; eauto.
Qed.

(** The detail reference of a record is built from the record's own
    identifier; only the error placeholder has none. *)
Theorem transformCompany_detailsUri :
  forall (StringToNumber : string -> number) (result : value) (index : nat),
    let company := transformCompany StringToNumber result index in
    (company = errorCompany index /\ Company.detailsUri company = "")
    \/ Company.detailsUri company
       = BASE_URL ++ "/companies/" ++ Company.businessId company.
Proof.
  intros S2N result index company. subst company. unfold transformCompany.
  destruct (tryTransformCompany S2N result index) as [c|e] eqn:H.
  - right. cbn [try_catch]. now apply tryTransformCompany_inv in H.
  - left. now split.
Qed.

(** The location label of every record is trimmed. *)
Theorem transformCompany_location_trimmed :
  forall (StringToNumber : string -> number) (result : value) (index : nat),
    trim (Company.location (transformCompany StringToNumber result index))
    = Company.location (transformCompany StringToNumber result index).
Proof.
  intros S2N result index. unfold transformCompany.
  destruct (tryTransformCompany S2N result index) as [c|e] eqn:H;
    [|reflexivity].
  cbn [try_catch].
  apply tryTransformCompany_inv in H.
  destruct H as (_ & (address & Hloc) & _).
  exact (locationStr_trimmed _ _ Hloc).
Qed.

Lemma company_placeholder_nonempty (index : nat) :
  company_placeholder index <> "".
Proof. discriminate. Qed.

Lemma businessIdStr_nonempty (businessId : value) (index : nat) :
  businessId <> Str "" -> businessIdStr businessId index <> "".
Proof.
  intros Hne.
  destruct businessId as [| |b|z|s|elems|props];
    try (apply company_placeholder_nonempty).
  - destruct b; [discriminate | apply company_placeholder_nonempty].
  - unfold businessIdStr. cbn [typeof truthy String.eqb Ascii.eqb Bool.eqb].
    destruct (z =? 0)%Z; cbn [negb];
      [apply company_placeholder_nonempty|].
    cbn [try_catch ToString]. apply string_of_Z_nonempty.
  - cbn. intros ->. now apply Hne.
  - rewrite businessIdStr_Obj.
    destruct (usableString (field props "value")) as [v|] eqn:Ev.
    + now apply usableString_plain in Ev.
    + destruct (usableString (field props "id")) as [i|] eqn:Ei.
      * now apply usableString_plain in Ei.
      * apply company_placeholder_nonempty.
Qed.

(** The identifier of a record is empty only when upstream supplied the
    empty string itself as [businessId]. *)
Theorem transformCompany_businessId_nonempty :
  forall (StringToNumber : string -> number) (result : value) (index : nat),
    get result "businessId" <> Normal (Str "") ->
    Company.businessId (transformCompany StringToNumber result index) <> "".
Proof.
  intros S2N result index Hne. unfold transformCompany.
  destruct (tryTransformCompany S2N result index) as [c|e] eqn:H;
    [|discriminate].
  cbn [try_catch].
  apply tryTransformCompany_inv in H.
  destruct H as ((bid & Hget & Hid) & _).
  rewrite Hid. apply businessIdStr_nonempty.
  intros ->. now apply Hne.
Qed.

(** An object whose identifier is the number 1234567. *)
Lemma transformCompany_businessId_nonempty_witness :
  get (Obj [("businessId", Num 1234567)]) "businessId" <> Normal (Str "")
  /\ Company.businessId
       (transformCompany decimalStringToNumber
          (Obj [("businessId", Num 1234567)]) 0) <> "".
Proof.
  assert (H : get (Obj [("businessId", Num 1234567)]) "businessId"
              <> Normal (Str "")) by discriminate.
  split; [exact H|].
  exact (transformCompany_businessId_nonempty decimalStringToNumber
           (Obj [("businessId", Num 1234567)]) 0 H).
Defined.

(** Placeholder identifiers of different positions differ, and an error
    placeholder is never a company placeholder. *)
Theorem placeholders_distinct :
  forall i j : nat,
    (company_placeholder i = company_placeholder j -> i = j)
    /\ (Company.businessId (errorCompany i)
        = Company.businessId (errorCompany j) -> i = j)
    /\ company_placeholder i <> Company.businessId (errorCompany j).
Proof.
  intros i j. split; [|split].
  - unfold company_placeholder. intros H.
    apply append_inv_head in H. now apply string_of_nat_inj.
  - cbn [errorCompany Company.businessId]. intros H.
    apply append_inv_head in H. now apply string_of_nat_inj.
  - discriminate.
Qed.

(** *** Malformed fields *)

Lemma call_find_opt_notSequence (v : value)
    (predicate : value -> completion bool) :
  notSequence v -> call_find_opt v predicate = Throw TypeError.
Proof.
  intros [Hnull Harr]. unfold call_find_opt, call_find. rewrite Hnull.
  destruct v; try reflexivity. now destruct (Harr elems).
Qed.

(** An object whose [names] or [addresses] is present but is not a
    sequence (a string, a number, an object) is replaced by the error
    placeholder of its position. *)
Theorem transformCompany_not_sequence :
  forall (StringToNumber : string -> number)
         (props : list (string * value)) (index : nat),
    notSequence (field props "names")
    \/ notSequence (field props "addresses") ->
    transformCompany StringToNumber (Obj props) index = errorCompany index.
Proof.
  intros S2N props index H.
  unfold transformCompany, tryTransformCompany.
  destruct H as [Hn | Ha].
  - unfold primaryName. rewrite get_Obj. cbn [bind].
    now rewrite (call_find_opt_notSequence _ _ Hn).
  - destruct (primaryName S2N (Obj props)) as [name|e]; [|reflexivity].
    cbn [bind]. rewrite get_Obj. cbn [bind].
    now rewrite (call_find_opt_notSequence _ _ Ha).
Qed.

(** A company whose names came as a single string. *)
Lemma transformCompany_not_sequence_witness :
  transformCompany decimalStringToNumber
    (Obj [("businessId", Str "1234567-8"); ("names", Str "Foo Oy")]) 4
  = errorCompany 4.
Proof.
  apply (transformCompany_not_sequence decimalStringToNumber
           [("businessId", Str "1234567-8"); ("names", Str "Foo Oy")] 4).
  left. split; [reflexivity | discriminate].
Defined.

(** A payload whose [companies] is truthy but is not a sequence makes
    [transformResponse] throw a [TypeError]; [fetchCompanies] answers such
    a body with the empty page. *)
Theorem transformResponse_companies_not_sequence :
  forall (StringToNumber : string -> number)
         (props : list (string * value)) (page maxResults : option Z),
    truthy (field props "companies") = true ->
    (forall elems, field props "companies" <> Arr elems) ->
    transformResponse StringToNumber (Obj props) page maxResults
    = Throw TypeError
    /\ forall fetch params status,
         fetch (requestUrl params)
         = Normal (mkResponse status (Normal (Obj props))) ->
         fetchCompanies StringToNumber fetch params
         = emptyResponse (requestedPage params).
Proof.
  intros S2N props page maxResults Ht Harr.
  assert (Hthrow : forall page maxResults,
             transformResponse S2N (Obj props) page maxResults
             = Throw TypeError).
  { intros pg mx. unfold transformResponse. cbn [truthy negb].
    rewrite !get_Obj. cbn [bind]. rewrite Ht. cbn [negb bind].
    destruct (field props "companies"); try reflexivity.
    now destruct (Harr elems). }
  split; [apply Hthrow|].
  intros fetch params status Hfetch.
  destruct (ok (mkResponse status (Normal (Obj props)))) eqn:Hok.
  - apply fetchCompanies_catches with (e := TypeError).
    unfold tryFetchCompanies. rewrite Hfetch. cbn [bind]. rewrite Hok.
    cbn [negb json bind]. apply Hthrow.
  - apply fetchCompanies_catches
      with (e := Error ("PRH API error: " ++ string_of_Z status)).
    unfold tryFetchCompanies. rewrite Hfetch. cbn [bind]. rewrite Hok.
    reflexivity.
Qed.

(** A body whose [companies] is an object keyed by identifier. *)
Lemma transformResponse_companies_not_sequence_witness :
  transformResponse decimalStringToNumber
    (Obj [("totalResults", Num 1);
          ("companies", Obj [("1234567-8", Obj [])])]) None None
  = Throw TypeError.
Proof.
  apply (transformResponse_companies_not_sequence decimalStringToNumber
           [("totalResults", Num 1);
            ("companies", Obj [("1234567-8", Obj [])])] None None);
    [reflexivity | discriminate].
Defined.

(** *** The requested page *)

Lemma transformResponse_currentPage StringToNumber data page maxResults
    response :
  transformResponse StringToNumber data page maxResults = Normal response ->
  CompanySearchResponse.currentPage response = pageOrDefault page.
Proof.
  unfold transformResponse. intros H.
  invert_bind H. destruct x.
  - now inversion H.
  - repeat invert_bind H. now inversion H.
Qed.

(** Whatever the network does, the page that [fetchCompanies] returns
    reports the page index that was requested. *)
Theorem fetchCompanies_currentPage :
  forall (StringToNumber : string -> number)
         (fetch : string -> completion Response)
         (params : CompanySearchParams.t),
    CompanySearchResponse.currentPage
      (fetchCompanies StringToNumber fetch params)
    = requestedPage params.
Proof.
  intros S2N fetch params. unfold fetchCompanies.
  destruct (tryFetchCompanies S2N fetch params) as [response|e] eqn:H;
    cbn [try_catch].
  - unfold tryFetchCompanies in H.
    invert_bind H. destruct (negb (ok x)); [discriminate|].
    invert_bind H. apply transformResponse_currentPage in H.
    rewrite H. apply page_or_0_requestedPage.
  - cbn. apply page_or_0_requestedPage.
Qed.

(** *** Company form and location *)

Lemma gt0_length StringToNumber (n : nat) :
  gt0 StringToNumber (Num (Z.of_nat n)) = Normal (negb (Nat.eqb n 0)).
Proof.
  unfold gt0, ToNumber. cbn [bind number_gt0]. f_equal.
  destruct n; [reflexivity|].
  cbn [Nat.eqb negb]. apply Z.ltb_lt. lia.
Qed.

(** The form of a company is read from the first entry of [companyForms]
    alone: a string is used verbatim, an object gives its [name] when that
    is a string (the empty string included) and its JSON text otherwise;
    without a first entry the form is the empty string. *)
Theorem companyFormStr_resolution :
  forall (StringToNumber : string -> number),
    (forall s rest,
        companyFormStr StringToNumber (Arr (Str s :: rest)) = Normal s)
    /\ (forall props name rest,
          field props "name" = Str name ->
          companyFormStr StringToNumber (Arr (Obj props :: rest))
          = Normal name)
    /\ (forall props rest,
          plainString (field props "name") = None ->
          companyFormStr StringToNumber (Arr (Obj props :: rest))
          = Normal (serialize (Obj props)))
    /\ companyFormStr StringToNumber (Arr []) = Normal ""
    /\ companyFormStr StringToNumber Undefined = Normal ""
    /\ companyFormStr StringToNumber Null = Normal "".
Proof.
  intros S2N.
  assert (Hfirst : forall form rest,
    companyFormStr S2N (Arr (form :: rest)) =
      if typeof form =? "string" then Normal (as_string form)
      else if truthy form then
        let* name := get form "name" in
        if typeof name =? "string" then Normal (as_string name)
        else Normal match JSON_stringify form with
                    | Some text => text
                    | None => ""
                    end
      else Normal "").
  { intros form rest. unfold companyFormStr.
    cbn [truthy get String.eqb Ascii.eqb Bool.eqb bind].
    rewrite gt0_length. reflexivity. }
  split; [intros s rest; now rewrite Hfirst|].
  split.
  { intros props name rest Hname. rewrite Hfirst.
    cbn [typeof truthy String.eqb Ascii.eqb Bool.eqb].
    rewrite get_Obj, Hname. reflexivity. }
  split.
  { intros props rest Hname. rewrite Hfirst.
    cbn [typeof truthy String.eqb Ascii.eqb Bool.eqb].
    rewrite get_Obj. cbn [bind].
    destruct (field props "name"); try discriminate; reflexivity. }
  repeat split.
Qed.

Lemma isCurrentAddress_Obj (address : list (string * value)) :
  isCurrentAddress (Obj address) = Normal (currentAddress address).
Proof. unfold isCurrentAddress. now rewrite get_Obj. Qed.

Lemma find_currentAddress (addresses : list (list (string * value))) :
  find isCurrentAddress (map Obj addresses) =
    Normal match List.find currentAddress addresses with
           | Some address => Obj address
           | None => Undefined
           end.
Proof.
  induction addresses as [|address rest IH]; [reflexivity|].
  cbn [map find List.find]. rewrite isCurrentAddress_Obj. cbn [bind].
  destruct (currentAddress address); [reflexivity | exact IH].
Qed.

Lemma ToString_or_else_Str (s : string) :
  ToString (or_else (Str s) (Str "")) = Normal s.
Proof.
  unfold or_else. cbn [truthy].
  destruct (String.eqb_spec s ""); [now subst | reflexivity].
Qed.






(** *** Conformant objects *)

Lemma ToString_stringOrAbsent (v : value) :
  stringOrAbsent v -> exists s, ToString (or_else v (Str "")) = Normal s.
Proof.
  intros [-> | [s ->]]; [now exists "" |].
  exists s. apply ToString_or_else_Str.
Qed.

Lemma displayName_conformant StringToNumber props :
  conformantNames (field props "names") ->
  exists name text,
    primaryName StringToNumber (Obj props) = Normal name
    /\ ToString name = Normal text.
Proof.
  intros Hnames.
  assert (H : exists text, displayName StringToNumber (Obj props)
                           = Normal text).
  { destruct Hnames as [Hnull | (variants & Hv & Hall)].
    - exists "". unfold displayName, primaryName. rewrite !get_Obj.
      destruct (field props "names"); try discriminate; reflexivity.
    - rewrite (displayName_variants _ _ _ Hv).
      assert (Hfirst : exists text, firstVariantName variants = Normal text).
      { destruct variants as [|first rest]; [now exists ""|].
        apply ToString_stringOrAbsent. now inversion Hall. }
      destruct (List.find currentFinnishVariant variants) as [variant|] eqn:Hf;
        [|exact Hfirst].
      apply List.find_some in Hf. destruct Hf as [Hin _].
      rewrite Forall_forall in Hall. specialize (Hall _ Hin).
      destruct Hall as [-> | [s ->]]; [exact Hfirst|].
      destruct (truthy (Str s)); [now exists s | exact Hfirst]. }
  destruct H as [text H]. unfold displayName in H.
  apply bind_Normal in H. destruct H as (name & Hn & Ht). eauto.
Qed.

Lemma registrationDateStr_total (v : value) :
  exists s, registrationDateStr v = Normal s.
Proof.
  destruct v as [| |b|z|s|elems|props]; try (eexists; reflexivity).
  - destruct b; eexists; reflexivity.
  - unfold registrationDateStr.
    cbn [typeof truthy String.eqb Ascii.eqb Bool.eqb get bind andb].
    destruct (negb (z =? 0)%Z); eexists; reflexivity.
  - rewrite registrationDateStr_Obj. eexists; reflexivity.
Qed.

Lemma companyFormStr_conformant StringToNumber (v : value) :
  conformantForms v -> exists s, companyFormStr StringToNumber v = Normal s.
Proof.
  intros [Hnull | [forms ->]].
  - destruct v; try discriminate; now exists "".
  - destruct forms as [|form rest]; [now exists ""|].
    unfold companyFormStr.
    cbn [truthy get String.eqb Ascii.eqb Bool.eqb bind].
    rewrite gt0_length. cbn [Nat.eqb negb bind List.length get_index nth].
    destruct (typeof form =? "string"); [eexists; reflexivity|].
    destruct form as [| |b|z|s|elems|props]; cbn [truthy];
      try (eexists; reflexivity).
    + destruct b; eexists; reflexivity.
    + destruct (negb (z =? 0)%Z); eexists; reflexivity.
    + destruct (negb (s =? "")); eexists; reflexivity.
    + rewrite get_Obj. cbn [bind].
      destruct (typeof (field props "name") =? "string");
        eexists; reflexivity.
Qed.

Lemma locationStr_conformant (address : list (string * value)) :
  stringOrAbsent (field address "postCode") ->
  conformantPostOffices (field address "postOffices") ->
  exists s, locationStr (Obj address) = Normal s.
Proof.
  intros Hpc Hpo. unfold locationStr. cbn [truthy].
  rewrite get_Obj. cbn [bind].
  destruct (ToString_stringOrAbsent _ Hpc) as [code ->]. cbn [bind].
  rewrite get_Obj. cbn [bind].
  assert (Hcity : exists city,
             (let* office := get_index_opt (field address "postOffices") 0 in
              get_opt office "city") = Normal city
             /\ stringOrAbsent city).
  { destruct Hpo as [Hnull | (offices & -> & Hall)].
    - unfold get_index_opt. rewrite Hnull. exists Undefined.
      split; [reflexivity | now left].
    - destruct offices as [|office rest].
      + exists Undefined. split; [reflexivity | now left].
      + exists (field office "city"). split.
        * cbn [map get_index_opt nullish get_index nth bind get_opt].
          apply get_Obj.
        * now inversion Hall. }
  destruct Hcity as (city & Hget & Hc).
  destruct (get_index_opt (field address "postOffices") 0) as [office|e];
    [|discriminate].
  cbn [bind] in Hget |- *. rewrite Hget. cbn [bind].
  destruct (ToString_stringOrAbsent _ Hc) as [town ->].
  eexists; reflexivity.
Qed.

(** An object whose [names], [addresses] and [companyForms] have the
    shape of the upstream schema is never replaced by the error
    placeholder: its record carries the resolved identifier and a detail
    reference. *)
Theorem transformCompany_conformant :
  forall (StringToNumber : string -> number)
         (props : list (string * value)) (index : nat),
    conformantNames (field props "names") ->
    conformantAddresses (field props "addresses") ->
    conformantForms (field props "companyForms") ->
    exists company,
      tryTransformCompany StringToNumber (Obj props) index = Normal company
      /\ transformCompany StringToNumber (Obj props) index = company
      /\ Company.businessId company
         = businessIdStr (field props "businessId") index
      /\ Company.detailsUri company <> "".
Proof.
  intros S2N props index Hnames Haddr Hforms.
  destruct (displayName_conformant S2N props Hnames)
    as (name & text & Hname & Htext).
  assert (Hfind : exists primary location,
             call_find_opt (field props "addresses") isCurrentAddress
             = Normal primary
             /\ locationStr primary = Normal location).
  { destruct Haddr as [Hnull | (addresses & Ha & Hall)].
    - exists Undefined, "". unfold call_find_opt. now rewrite Hnull.
    - rewrite Ha. cbn [call_find_opt nullish call_find].
      rewrite find_currentAddress.
      destruct (List.find currentAddress addresses) as [address|] eqn:Hf.
      + apply List.find_some in Hf. destruct Hf as [Hin _].
        rewrite Forall_forall in Hall. destruct (Hall _ Hin) as [Hpc Hpo].
        destruct (locationStr_conformant address Hpc Hpo) as [location Hl].
        now exists (Obj address), location.
      + now exists Undefined, "". }
  destruct Hfind as (primary & location & Hfind & Hloc).
  destruct (registrationDateStr_total (field props "registrationDate"))
    as [date Hdate].
  destruct (companyFormStr_conformant S2N _ Hforms) as [form Hform].
  assert (H : exists company,
             tryTransformCompany S2N (Obj props) index = Normal company
             /\ Company.detailsUri company <> "").
  { unfold tryTransformCompany.
    rewrite Hname. cbn [bind]. rewrite get_Obj. cbn [bind].
    rewrite Hfind. cbn [bind]. rewrite get_Obj. cbn [bind].
    rewrite get_Obj. cbn [bind]. rewrite Hdate. cbn [bind].
    rewrite get_Obj. cbn [bind]. rewrite Hform. cbn [bind].
    rewrite Hloc. cbn [bind]. rewrite get_Obj. cbn [bind].
    rewrite Htext. cbn [bind].
    eexists. split; [reflexivity|]. cbn [Company.detailsUri]. discriminate. }
  destruct H as (company & Htry & Huri).
  exists company. split; [exact Htry|]. split.
  - unfold transformCompany. now rewrite Htry.
  - split; [|exact Huri]. now apply tryTransformCompany_fields in Htry.
Qed.

(** A record of the registry with one name, one address and one form. *)
Lemma transformCompany_conformant_witness :
  exists company,
    tryTransformCompany decimalStringToNumber
      (Obj [("businessId", Str "1234567-8");
            ("names", Arr (map Obj [[("name", Str "Foo Oy")]]));
            ("addresses", Arr (map Obj [[("postCode", Str "00100")]]));
            ("companyForms", Arr [Obj [("name", Str "Osakeyhtio")]])]) 0
    = Normal company
    /\ transformCompany decimalStringToNumber
         (Obj [("businessId", Str "1234567-8");
               ("names", Arr (map Obj [[("name", Str "Foo Oy")]]));
               ("addresses", Arr (map Obj [[("postCode", Str "00100")]]));
               ("companyForms", Arr [Obj [("name", Str "Osakeyhtio")]])]) 0
       = company
    /\ Company.businessId company
       = businessIdStr
           (field [("businessId", Str "1234567-8");
                   ("names", Arr (map Obj [[("name", Str "Foo Oy")]]));
                   ("addresses", Arr (map Obj [[("postCode", Str "00100")]]));
                   ("companyForms", Arr [Obj [("name", Str "Osakeyhtio")]])]
              "businessId") 0
    /\ Company.detailsUri company <> "".
Proof.
  apply (transformCompany_conformant decimalStringToNumber
           [("businessId", Str "1234567-8");
            ("names", Arr (map Obj [[("name", Str "Foo Oy")]]));
            ("addresses", Arr (map Obj [[("postCode", Str "00100")]]));
            ("companyForms", Arr [Obj [("name", Str "Osakeyhtio")]])] 0).
  - right. exists [[("name", Str "Foo Oy")]]. split; [reflexivity|].
    apply Forall_cons; [|apply Forall_nil]. right. now exists "Foo Oy".
  - right. exists [[("postCode", Str "00100")]]. split; [reflexivity|].
    apply Forall_cons; [|apply Forall_nil]. split.
    + right. now exists "00100".
    + now left.
  - right. now exists [Obj [("name", Str "Osakeyhtio")]].
Defined.

(** An empty [companies] sequence with no count is normalized to the same
    empty page as a missing sequence. *)
Theorem transformResponse_empty_sequence :
  forall (StringToNumber : string -> number)
         (props : list (string * value)) (page maxResults : option Z),
    field props "companies" = Arr [] ->
    truthy (field props "totalResults") = false ->
    pageSize maxResults <> 0%Z ->
    transformResponse StringToNumber (Obj props) page maxResults
    = Normal (emptyResponse (pageOrDefault page)).
Proof.
  intros S2N props page maxResults Hc Ht Hsize.
  rewrite (transformResponse_Arr S2N props [] page maxResults Hc).
  unfold or_else. cbv zeta. rewrite Ht.
  cbn [List.length Z.of_nat ToNumber bind map_index map_from].
  unfold emptyResponse, ceil_div.
  destruct (Z.eqb_spec (pageSize maxResults) 0) as [H0|_];
    [contradiction|].
  reflexivity.
Qed.

(** The body of a search that matches nothing. *)
Lemma transformResponse_empty_sequence_witness :
  transformResponse decimalStringToNumber
    (Obj [("totalResults", Num 0); ("companies", Arr [])])
    (Some 4%Z) None
  = Normal (emptyResponse 4).
Proof.
  apply (transformResponse_empty_sequence decimalStringToNumber
           [("totalResults", Num 0); ("companies", Arr [])]
           (Some 4%Z) None); [reflexivity | reflexivity | discriminate].
Defined.

(** ** Properties of the request *)

Lemma list_ascii_of_string_app (a b : string) :
  list_ascii_of_string (a ++ b)
  = (list_ascii_of_string a ++ list_ascii_of_string b)%list.
Proof. induction a as [|c a IH]; simpl; [reflexivity | now rewrite IH]. Qed.

Lemma all_chars_app (p : ascii -> bool) (a b : string) :
  all_chars p (a ++ b) = all_chars p a && all_chars p b.
Proof.
  unfold all_chars. now rewrite list_ascii_of_string_app, forallb_app.
Qed.

Lemma concat_empty_cons (x : string) (l : list string) :
  String.concat "" (x :: l) = x ++ String.concat "" l.
Proof.
  destruct l as [|y l]; simpl; [|reflexivity].
  induction x as [|c x IH]; simpl; [reflexivity | now rewrite <- IH].
Qed.

Lemma urlencode_cons (c : ascii) (s : string) :
  urlencode (String c s) = urlencode_char c ++ urlencode s.
Proof. unfold urlencode. cbn [list_ascii_of_string map]. apply concat_empty_cons. Qed.

Lemma urlencode_char_safe (c : ascii) :
  all_chars is_form_safe (urlencode_char c) = true.
Proof.
  destruct c as [[] [] [] [] [] [] [] []]; vm_compute; reflexivity.
Qed.

Lemma urlencode_safe (s : string) :
  all_chars is_form_safe (urlencode s) = true.
Proof.
  induction s as [|c s IH]; [reflexivity|].
  now rewrite urlencode_cons, all_chars_app, urlencode_char_safe, IH.
Qed.

Lemma count_char_app (c : ascii) (a b : string) :
  count_char c (a ++ b) = count_char c a + count_char c b.
Proof.
  induction a as [|c' a IH]; simpl; [reflexivity|]. rewrite IH. lia.
Qed.

Lemma count_char_absent (p : ascii -> bool) (c : ascii) (s : string) :
  p c = false -> all_chars p s = true -> count_char c s = 0.
Proof.
  intros Hc. unfold all_chars.
  induction s as [|c' s IH]; simpl; [reflexivity|].
  intros H. apply andb_true_iff in H. destruct H as [Hc' Hs].
  rewrite (IH Hs).
  destruct (Ascii.eqb_spec c' c) as [->|_]; [congruence | reflexivity].
Qed.

(** Encoded keys and values hold only letters, digits and the characters
    [*-._+%], so the criteria cannot add parameters to the request: the
    query string has one [=] for each parameter and one [&] between
    two. *)
Theorem URLSearchParams_toString_separators :
  forall entries : list (string * string),
    (forall s, all_chars is_form_safe (urlencode s) = true)
    /\ count_char "=" (URLSearchParams_toString entries)
       = List.length entries
    /\ count_char "&" (URLSearchParams_toString entries)
       = Nat.pred (List.length entries).
Proof.
  intros entries. split.
  { apply urlencode_safe. }
  unfold URLSearchParams_toString.
  assert (Hpair : forall k v,
             count_char "=" (urlencode k ++ "=" ++ urlencode v) = 1
             /\ count_char "&" (urlencode k ++ "=" ++ urlencode v) = 0).
  { intros k v. rewrite !count_char_app. cbn [count_char Ascii.eqb Bool.eqb].
    rewrite !(count_char_absent is_form_safe "=" _ eq_refl (urlencode_safe _)).
    rewrite !(count_char_absent is_form_safe "&" _ eq_refl (urlencode_safe _)).
    split; reflexivity. }
  induction entries as [|[k v] rest IH]; [split; reflexivity|].
  destruct IH as [IHeq IHamp].
  destruct (Hpair k v) as [Heq Hamp].
  destruct rest as [|[k' v'] rest'].
  - cbn [map String.concat List.length Nat.pred]. now split.
  - change (String.concat "&"
              (map (fun '(k0, v0) => urlencode k0 ++ "=" ++ urlencode v0)
                 ((k, v) :: (k', v') :: rest')))
      with ((urlencode k ++ "=" ++ urlencode v) ++ "&"
            ++ String.concat "&"
                 (map (fun '(k0, v0) => urlencode k0 ++ "=" ++ urlencode v0)
                    ((k', v') :: rest'))).
    rewrite !(count_char_app _ (urlencode k ++ "=" ++ urlencode v)).
    rewrite !(count_char_app _ "&").
    rewrite Heq, Hamp, IHeq, IHamp.
    cbn [count_char Ascii.eqb Bool.eqb List.length Nat.pred]. split; lia.
Qed.

Lemma urlencode_char_unreserved (c : ascii) :
  is_unreserved c = true -> urlencode_char c = String c "".
Proof.
  unfold is_unreserved, urlencode_char. cbv zeta. now intros ->.
Qed.

Lemma urlencode_unreserved_chars (s : string) :
  all_chars is_unreserved s = true -> urlencode s = s.
Proof.
  induction s as [|c s IH]; [reflexivity|].
  unfold all_chars. cbn [list_ascii_of_string forallb].
  intros H. apply andb_true_iff in H. destruct H as [Hc Hs].
  rewrite urlencode_cons, (urlencode_char_unreserved c Hc), (IH Hs).
  reflexivity.
Qed.


(** ** Properties of the search form *)

Lemma match_digits_sound (count : nat) :
  forall s rest,
    match_digits count s = Some rest ->
    exists digits,
      List.length digits = count
      /\ forallb is_digit digits = true
      /\ s = string_of_list_ascii digits ++ rest.
Proof.
  induction count as [|count IH]; intros s rest H.
  - inversion H. now exists [].
  - destruct s as [|c s]; [discriminate|]. cbn [match_digits] in H.
    destruct (is_digit c) eqn:Hc; [|discriminate].
    destruct (IH _ _ H) as (digits & Hlen & Hall & ->).
    exists (c :: digits). cbn. rewrite Hc, Hall, Hlen. now repeat split.
Qed.

Lemma match_digits_complete (digits : list ascii) (rest : string) :
  forallb is_digit digits = true ->
  match_digits (List.length digits) (string_of_list_ascii digits ++ rest)
  = Some rest.
Proof.
  induction digits as [|c digits IH]; [reflexivity|].
  cbn. intros H. apply andb_true_iff in H. destruct H as [Hc Hall].
  rewrite Hc. now apply IH.
Qed.

(** The business IDs that the form accepts: the empty string, and exactly
    the strings made of seven digits, a hyphen and one digit. *)
Theorem validateBusinessId_format :
  forall id : string,
    validateBusinessId id = true <->
    id = ""
    \/ exists (digits : list ascii) (check : ascii),
         List.length digits = 7
         /\ forallb is_digit digits = true
         /\ is_digit check = true
         /\ id = string_of_list_ascii digits ++ "-" ++ String check "".
Proof.
  intros id. unfold validateBusinessId. split.
  - destruct (String.eqb_spec id "") as [->|Hne]; [now left|].
    intros H. right. unfold businessIdPattern in H.
    destruct (match_digits 7 id) as [[|c rest]|] eqn:Hseven;
      try discriminate.
    apply andb_true_iff in H. destruct H as [Hc Hone].
    apply Ascii.eqb_eq in Hc. subst c.
    destruct (match_digits 1 rest) as [[|]|] eqn:Hlast; try discriminate.
    apply match_digits_sound in Hseven.
    destruct Hseven as (digits & Hlen & Hall & ->).
    apply match_digits_sound in Hlast.
    destruct Hlast as (last & Hlen1 & Hall1 & ->).
    destruct last as [|check [|]]; try discriminate.
    cbn in Hall1. rewrite andb_true_r in Hall1.
    exists digits, check. now repeat split.
  - intros [-> | (digits & check & Hlen & Hall & Hcheck & ->)];
      [reflexivity|].
    assert (Hne : (string_of_list_ascii digits ++ "-" ++ String check ""
                   =? "") = false).
    { destruct digits; [discriminate Hlen | reflexivity]. }
    rewrite Hne. unfold businessIdPattern.
    rewrite <- Hlen, (match_digits_complete digits _ Hall).
    cbn. now rewrite Hcheck.
Qed.

Lemma trim_end_no_space (s : string) :
  all_chars (fun c => negb (is_space c)) s = true -> trim_end s = s.
Proof.
  unfold all_chars. induction s as [|c s IH]; [reflexivity|].
  cbn [list_ascii_of_string forallb trim_end].
  intros H. apply andb_true_iff in H. destruct H as [Hc Hs].
  rewrite (IH Hs). apply negb_true_iff in Hc. rewrite Hc.
  now destruct s.
Qed.

Lemma trim_no_space (s : string) :
  all_chars (fun c => negb (is_space c)) s = true -> trim s = s.
Proof.
  intros H. unfold trim.
  assert (Hstart : trim_start s = s).
  { destruct s as [|c s]; [reflexivity|].
    unfold all_chars in H. cbn in H. apply andb_true_iff in H.
    destruct H as [Hc _]. apply negb_true_iff in Hc.
    cbn [trim_start]. now rewrite Hc. }
  rewrite Hstart. now apply trim_end_no_space.
Qed.

Lemma unreserved_not_space (c : ascii) :
  is_unreserved c = true -> negb (is_space c) = true.
Proof.
  destruct c as [[] [] [] [] [] [] [] []]; vm_compute;
    intros H; try reflexivity; discriminate H.
Qed.

Lemma digit_unreserved (c : ascii) :
  is_digit c = true -> is_unreserved c = true.
Proof.
  destruct c as [[] [] [] [] [] [] [] []]; vm_compute;
    intros H; try reflexivity; discriminate H.
Qed.

Lemma all_chars_impl (p q : ascii -> bool) (s : string) :
  (forall c, p c = true -> q c = true) ->
  all_chars p s = true -> all_chars q s = true.
Proof.
  intros Hpq. unfold all_chars. rewrite !forallb_forall. auto.
Qed.

Lemma all_chars_string_of_list (p : ascii -> bool) (l : list ascii) :
  all_chars p (string_of_list_ascii l) = forallb p l.
Proof.
  unfold all_chars. now rewrite list_ascii_of_string_of_list_ascii.
Qed.

Lemma validateBusinessId_unreserved (id : string) :
  validateBusinessId id = true -> all_chars is_unreserved id = true.
Proof.
  unfold validateBusinessId.
  destruct (String.eqb_spec id "") as [->|_]; [reflexivity|].
  unfold businessIdPattern. intros H.
  destruct (match_digits 7 id) as [[|c rest]|] eqn:Hseven; try discriminate.
  apply andb_true_iff in H. destruct H as [Hc Hone].
  apply Ascii.eqb_eq in Hc. subst c.
  destruct (match_digits 1 rest) as [[|]|] eqn:Hlast; try discriminate.
  apply match_digits_sound in Hseven.
  destruct Hseven as (digits & _ & Hall & ->).
  apply match_digits_sound in Hlast.
  destruct Hlast as (last & _ & Hall1 & ->).
  rewrite all_chars_app, all_chars_string_of_list.
  change (String "-" (string_of_list_ascii last ++ ""))
    with ("-" ++ string_of_list_ascii last ++ "").
  rewrite !all_chars_app, all_chars_string_of_list.
  rewrite forallb_forall in Hall, Hall1.
  apply andb_true_iff; split; [|apply andb_true_iff; split;
                                 [reflexivity | apply andb_true_iff; split;
                                                [|reflexivity]]];
    apply forallb_forall; intros c Hin; apply digit_unreserved; auto.
Qed.

(** A business ID that the form accepts has no white space around it and
    needs no encoding: it reaches the query string as it was typed. *)
Theorem validateBusinessId_sent_verbatim :
  forall id : string,
    validateBusinessId id = true ->
    trim id = id /\ urlencode id = id.
Proof.
  intros id H. apply validateBusinessId_unreserved in H. split.
  - apply trim_no_space.
    exact (all_chars_impl _ _ id unreserved_not_space H).
  - now apply urlencode_unreserved_chars.
Qed.

(** A well-formed identifier. *)
Lemma validateBusinessId_sent_verbatim_witness :
  trim "1234567-8" = "1234567-8" /\ urlencode "1234567-8" = "1234567-8".
Proof. apply (validateBusinessId_sent_verbatim "1234567-8"). reflexivity. Defined.

Lemma letter_not_space (c : ascii) :
  is_ascii_letter c = true -> is_space c = false.
Proof.
  destruct c as [[] [] [] [] [] [] [] []]; vm_compute;
    intros H; try reflexivity; discriminate H.
Qed.

Lemma trim_start_keeps (s : string) :
  existsb (fun c => negb (is_space c)) (list_ascii_of_string (trim_start s))
  = existsb (fun c => negb (is_space c)) (list_ascii_of_string s).
Proof.
  induction s as [|c s IH]; [reflexivity|].
  cbn [trim_start]. destruct (is_space c) eqn:Hc; [|reflexivity].
  cbn [list_ascii_of_string existsb]. now rewrite Hc.
Qed.

Lemma trim_end_nonempty (s : string) :
  existsb (fun c => negb (is_space c)) (list_ascii_of_string s) = true ->
  trim_end s <> "".
Proof.
  induction s as [|c s IH]; [discriminate|].
  cbn [list_ascii_of_string existsb trim_end]. intros H.
  destruct (trim_end s) as [|c' t] eqn:Ht; [|discriminate].
  destruct (is_space c) eqn:Hc; [|discriminate].
  cbn [negb orb] in H. now apply IH in H.
Qed.

Lemma townNamePattern_trim (loc : string) :
  townNamePattern loc = true -> trim loc <> "".
Proof.
  unfold townNamePattern, trim. intros H.
  apply trim_end_nonempty. rewrite trim_start_keeps.
  apply existsb_exists in H. destruct H as (c & Hin & Hc).
  apply existsb_exists. exists c. split; [exact Hin|].
  now rewrite (letter_not_space c Hc).
Qed.

Lemma validateLocation_letters_eq (loc : string) :
  validateLocation loc = (loc =? "") || townNamePattern loc.
Proof.
  unfold validateLocation.
  destruct (loc =? ""); [reflexivity|]. cbn [orb].
  destruct (townNamePattern loc) eqn:Hp; [|reflexivity].
  cbn [andb]. apply townNamePattern_trim in Hp.
  destruct (trim loc); [contradiction | reflexivity].
Qed.

(** A location is accepted exactly when it is empty or holds an ASCII
    letter (so digits alone, or letters outside ASCII alone, are refused);
    the test on the trimmed length never decides. *)
Theorem validateLocation_letters :
  forall loc : string,
    (validateLocation loc = true <->
     loc = "" \/ exists c, In c (list_ascii_of_string loc)
                          /\ is_ascii_letter c = true)
    /\ (townNamePattern loc = true ->
        (0 <? String.length (trim loc))%nat = true).
Proof.
  intros loc. split.
  - rewrite validateLocation_letters_eq. unfold townNamePattern.
    rewrite orb_true_iff, existsb_exists.
    destruct (String.eqb_spec loc ""); intuition congruence.
  - intros Hp. apply townNamePattern_trim in Hp.
    destruct (trim loc); [contradiction | reflexivity].
Qed.

Section SearchFormProperties.

Context {Dayjs : Type}.
Variable isBefore isSame : Dayjs -> Dayjs -> bool.
Variable format : Dayjs -> string.

Lemma submitErrors_none (state : FormState Dayjs) :
  hasErrors (submitErrors isBefore isSame state) = false <->
  submittable isBefore isSame state.
Proof.
  destruct state as [loc bid start stop].
  unfold submittable, submitErrors, hasErrors, validateDateRange,
    validateBusinessId.
  cbn [state_location state_businessId state_registrationDateStart
       state_registrationDateEnd ValidationErrors.businessId
       ValidationErrors.location ValidationErrors.dateRange
       ValidationErrors.form].
  rewrite validateLocation_letters_eq.
  destruct (String.eqb_spec bid "") as [Hb|Hb];
    destruct (String.eqb_spec loc "") as [Hl|Hl];
    destruct (businessIdPattern bid) eqn:Hbp;
    destruct (townNamePattern loc) eqn:Hlp;
    destruct (String.eqb_spec (trim bid) "") as [Htb|Htb];
    destruct (String.eqb_spec (trim loc) "") as [Htl|Htl];
    destruct start as [s|]; destruct stop as [e|];
    cbn [negb andb orb is_some];
    try (destruct (isBefore s e) eqn:Hbef; destruct (isSame s e) eqn:Hsame;
         cbn [negb andb orb]);
    split; intros H; try discriminate H; try reflexivity;
    try (exfalso;
         destruct H as (H1 & H2 & H3 & H4);
         try (destruct H1 as [H1|H1]; congruence);
         try (destruct H2 as [H2|H2]; congruence);
         try (destruct (H3 _ _ eq_refl eq_refl) as [H3'|H3']; congruence);
         try (destruct H4 as [H4|[H4|[H4|H4]]]; congruence));
    try (repeat split;
         try (intros s' e' Hs He; inversion Hs; inversion He; subst;
              rewrite ?Hbef, ?Hsame; tauto);
         try (intros s' e' Hs He; discriminate);
         try tauto; try (now left); try (now right);
         try (right; right; left; discriminate);
         try (right; right; right; discriminate);
         try (right; left; assumption)).
Qed.

(** The form starts a search exactly when every field that is filled in
    is well formed (a business ID of seven digits, a hyphen and a digit; a
    location with an ASCII letter; a start date not after the end date)
    and at least one criterion is left after trimming; otherwise it only
    reports errors. *)
Theorem handleSubmit_dispatches :
  forall state : FormState Dayjs,
    (exists params,
        snd (handleSubmit isBefore isSame format state) = Some params)
    <-> submittable isBefore isSame state.
Proof.
  intros state. rewrite <- submitErrors_none. unfold handleSubmit.
  destruct (hasErrors (submitErrors isBefore isSame state)); cbn [snd].
  - split; [intros [params H]; discriminate H | discriminate].
  - split; [reflexivity | eauto].
Qed.

(** The criteria that the form passes to a search: the business ID as it
    was typed (it is well formed, so trimming changes nothing), the
    trimmed location of an input that holds a letter, page 0, and at
    least one criterion. *)
Theorem handleSubmit_params :
  forall (state : FormState Dayjs) (errors : ValidationErrors.t)
         (params : CompanySearchParams.t),
    handleSubmit isBefore isSame format state = (errors, Some params) ->
    hasErrors errors = false
    /\ CompanySearchParams.businessId params
       = string_or_undefined (state_businessId state)
    /\ (forall id, CompanySearchParams.businessId params = Some id ->
                   businessIdPattern id = true /\ urlencode id = id)
    /\ (forall loc, CompanySearchParams.location params = Some loc ->
                    loc = trim (state_location state)
                    /\ loc <> ""
                    /\ townNamePattern (state_location state) = true)
    /\ (CompanySearchParams.businessId params <> None
        \/ CompanySearchParams.location params <> None
        \/ CompanySearchParams.registrationDateStart params <> None
        \/ CompanySearchParams.registrationDateEnd params <> None)
    /\ CompanySearchParams.page params = Some 0%Z
    /\ entry "page" (formatSearchParams params) = Some "1".
Proof.
  intros state errors params H. unfold handleSubmit in H.
  destruct (hasErrors (submitErrors isBefore isSame state)) eqn:He;
    [discriminate H|].
  inversion H; subst errors; clear H.
  split; [exact He|].
  apply submitErrors_none in He.
  destruct He as (Hbid & Hloc & _ & Hsome).
  assert (Hid : string_or_undefined (trim (state_businessId state))
                = string_or_undefined (state_businessId state)).
  { destruct Hbid as [-> | Hp]; [reflexivity|].
    assert (Hv : validateBusinessId (state_businessId state) = true).
    { unfold validateBusinessId.
      now destruct (state_businessId state =? ""). }
    apply validateBusinessId_unreserved in Hv.
    rewrite trim_no_space; [reflexivity|].
    exact (all_chars_impl _ _ _ unreserved_not_space Hv). }
  cbn [CompanySearchParams.businessId CompanySearchParams.location
       CompanySearchParams.registrationDateStart
       CompanySearchParams.registrationDateEnd CompanySearchParams.page].
  split; [exact Hid|]. split.
  { rewrite Hid. unfold string_or_undefined. intros id Hsome'.
    destruct (String.eqb_spec (state_businessId state) "") as [|Hne];
      [discriminate|].
    inversion Hsome'; subst id.
    destruct Hbid as [Hempty | Hp]; [contradiction|].
    split; [exact Hp|].
    apply urlencode_unreserved_chars, validateBusinessId_unreserved.
    unfold validateBusinessId.
    now destruct (state_businessId state =? ""). }
  split.
  { unfold string_or_undefined. intros loc Hsome'.
    destruct (String.eqb_spec (trim (state_location state)) "") as [|Hne];
      [discriminate|].
    inversion Hsome'; subst loc. split; [reflexivity|]. split; [exact Hne|].
    destruct Hloc as [Hempty | Hp]; [|exact Hp].
    rewrite Hempty in Hne. now destruct Hne. }
  split.
  { unfold string_or_undefined.
    destruct Hsome as [Hb | [Hl | [Hs | Hen]]].
    - left. rewrite Hid in *.
      destruct (String.eqb_spec (trim (state_businessId state)) "");
        [contradiction | discriminate].
    - right; left.
      destruct (String.eqb_spec (trim (state_location state)) "");
        [contradiction | discriminate].
    - right; right; left.
      destruct (state_registrationDateStart state);
        [discriminate | contradiction].
    - right; right; right.
      destruct (state_registrationDateEnd state);
        [discriminate | contradiction]. }
  split; [reflexivity|].
  rewrite formatSearchParams_entries.
  rewrite !entry_optional_other by reflexivity. reflexivity.
Qed.

End SearchFormProperties.

(** A search by town and business ID, with no dates. *)
Lemma handleSubmit_params_witness :
  exists params,
    CompanySearchParams.businessId params = Some "1234567-8"
    /\ CompanySearchParams.location params = Some "Helsinki"
    /\ entry "page" (formatSearchParams params) = Some "1".
Proof.
  destruct (handleSubmit (fun _ _ : unit => true) (fun _ _ => true)
              (fun _ => "2020-01-31")
              (mkFormState " Helsinki " "1234567-8" None None))
    as [errors [params|]] eqn:H; [|discriminate H].
  pose proof (handleSubmit_params (fun _ _ : unit => true) (fun _ _ => true)
                (fun _ => "2020-01-31") _ _ _ H)
    as (_ & Hid & _ & _ & _ & _ & Hpage).
  exists params. split; [exact Hid|]. split; [|exact Hpage].
  now inversion H.
Defined.

(** *** The request determines the criteria *)
















(** *** Paging *)

(** For pages that are safe integers, changing the page keeps the filters
    of the search and asks upstream for the page after [newPage]; a new
    search asks for page 1. *)
Theorem handleChangePage_keeps_filters :
  forall (searchParams : CompanySearchParams.t) (newPage : Z),
    safeInteger (requestedPage searchParams) ->
    safeInteger newPage ->
    exists filters,
      formatSearchParams searchParams
      = (filters
         ++ [("totalResults", "true");
             ("page", string_of_Z (requestedPage searchParams + 1))])%list
      /\ formatSearchParams (handleChangePage searchParams newPage)
         = (filters
            ++ [("totalResults", "true");
                ("page", string_of_Z (newPage + 1))])%list
      /\ formatSearchParams (handleSearch searchParams)
         = (filters ++ [("totalResults", "true"); ("page", "1")])%list
      /\ ~ In "page" (map fst filters).
Proof.
  intros searchParams newPage _ _.
  exists (optional_entry "businessId"
            (CompanySearchParams.businessId searchParams)
          ++ optional_entry "location"
               (CompanySearchParams.location searchParams)
          ++ optional_entry "registrationDateStart"
               (CompanySearchParams.registrationDateStart searchParams)
          ++ optional_entry "registrationDateEnd"
               (CompanySearchParams.registrationDateEnd searchParams))%list.
  rewrite !formatSearchParams_entries. cbn [handleChangePage handleSearch
    CompanySearchParams.businessId CompanySearchParams.location
    CompanySearchParams.registrationDateStart
    CompanySearchParams.registrationDateEnd].
  rewrite <- !app_assoc. repeat split.
  unfold optional_entry.
  destruct (CompanySearchParams.businessId searchParams) as [b|];
    [destruct (b =? "")|];
    (destruct (CompanySearchParams.location searchParams) as [l|];
     [destruct (l =? "")|]);
    (destruct (CompanySearchParams.registrationDateStart searchParams)
       as [s|]; [destruct (s =? "")|]);
    (destruct (CompanySearchParams.registrationDateEnd searchParams)
       as [e|]; [destruct (e =? "")|]);
    cbn; intuition discriminate.
Qed.

(** From page 0 of a search by town to page 1. *)
Lemma handleChangePage_keeps_filters_witness :
  exists filters,
    formatSearchParams
      (CompanySearchParams.mk (Some "Helsinki") None None None (Some 0%Z)
         (Some 100%Z))
    = (filters ++ [("totalResults", "true"); ("page", "1")])%list
    /\ formatSearchParams
         (handleChangePage
            (CompanySearchParams.mk (Some "Helsinki") None None None
               (Some 0%Z) (Some 100%Z)) 1)
       = (filters ++ [("totalResults", "true"); ("page", "2")])%list.
Proof.
  destruct (handleChangePage_keeps_filters
              (CompanySearchParams.mk (Some "Helsinki") None None None
                 (Some 0%Z) (Some 100%Z)) 1
              (conj eq_refl eq_refl) (conj eq_refl eq_refl))
    as (filters & H0 & H1 & _).
  exists filters. split; [exact H0 | exact H1].
Defined.

(** *** Failure and emptiness *)

Lemma tryFetchCompanies_fails StringToNumber fetch params :
  requestFails (fetch (requestUrl params)) ->
  exists e, tryFetchCompanies StringToNumber fetch params = Throw e.
Proof.
  unfold requestFails, tryFetchCompanies.
  destruct (fetch (requestUrl params)) as [response|e];
    [|intros _; eexists; reflexivity].
  cbn [bind]. intros [Hok | [e Hjson]].
  - rewrite Hok. eexists; reflexivity.
  - destruct (ok response); [|eexists; reflexivity].
    rewrite Hjson. eexists; reflexivity.
Qed.

(** The page returned for a failed request is the page returned for a
    successful answer that holds no company: the caller of
    [fetchCompanies] cannot tell a failure from an empty result. *)
Theorem fetchCompanies_failure_looks_empty :
  forall (StringToNumber : string -> number)
         (failing answering : string -> completion Response)
         (params : CompanySearchParams.t)
         (status : Z) (props : list (string * value)),
    requestFails (failing (requestUrl params)) ->
    answering (requestUrl params)
    = Normal (mkResponse status (Normal (Obj props))) ->
    ok (mkResponse status (Normal (Obj props))) = true ->
    field props "companies" = Arr [] ->
    truthy (field props "totalResults") = false ->
    fetchCompanies StringToNumber failing params
    = fetchCompanies StringToNumber answering params.
Proof.
  intros S2N failing answering params status props Hfail Hans Hok Hc Ht.
  destruct (tryFetchCompanies_fails S2N failing params Hfail) as [e He].
  rewrite (fetchCompanies_catches S2N failing params e He).
  unfold fetchCompanies, tryFetchCompanies.
  rewrite Hans. cbn [bind]. rewrite Hok. cbn [negb json bind].
  rewrite (transformResponse_Arr S2N props [] _ _ Hc).
  unfold or_else. cbv zeta. rewrite Ht.
  cbn [List.length Z.of_nat ToNumber bind try_catch pageOrDefault].
  now rewrite page_or_0_requestedPage.
Qed.

(** A server error, and a search that matches nothing. *)
Lemma fetchCompanies_failure_looks_empty_witness :
  fetchCompanies decimalStringToNumber
    (fun _ => Normal (mkResponse 500 (Normal Null)))
    (CompanySearchParams.mk (Some "Helsinki") None None None (Some 1%Z) None)
  = fetchCompanies decimalStringToNumber
      (fun _ =>
         Normal (mkResponse 200
                   (Normal (Obj [("totalResults", Num 0);
                                 ("companies", Arr [])]))))
      (CompanySearchParams.mk (Some "Helsinki") None None None (Some 1%Z)
         None).
Proof.
  apply (fetchCompanies_failure_looks_empty decimalStringToNumber
           (fun _ => Normal (mkResponse 500 (Normal Null)))
           (fun _ =>
              Normal (mkResponse 200
                        (Normal (Obj [("totalResults", Num 0);
                                      ("companies", Arr [])]))))
           (CompanySearchParams.mk (Some "Helsinki") None None None
              (Some 1%Z) None)
           200 [("totalResults", Num 0); ("companies", Arr [])]);
    [left; reflexivity | reflexivity | reflexivity | reflexivity
     | reflexivity].
Defined.
